(** * compysition: the event model and its conversion engine

    A shallow embedding of [compysition/event.py] (Python 2): the values an
    event carries, the class hierarchy of the event types, the payload
    setter with its per-family conversion tables, [Event.convert],
    [Event.lookup], the HTTP status, error and pagination slots of
    [HttpEvent], and the XML/JSON envelope helpers.

    Conventions of the embedding.
    - A Python call that may raise returns a [result]: [Ok v] or [Raise e].
      A [try/except] is a [match] on the raised exception.
    - An instance is its class and its [__dict__], a finite map from
      attribute names to values; an assignment to an attribute is an insert.
    - Text is a Python 2 [str]: the conversion tables and the [isinstance]
      tests of the module are keyed by [str], and a [unicode] is not a value
      of the model. [dict] and [OrderedDict] are one constructor, and the
      three lxml tree classes are one constructor.
    - The libraries the module calls ([json], [lxml.etree],
      [xmltodict.unparse]) are a record of functions the definitions take as
      a parameter; [xmltodict.parse] is written out after the library's SAX
      handler, so that the decoding of a concrete tree can be evaluated. *)

From Stdlib Require Import ZArith String Ascii List Bool Lia.
From stdpp Require Import base option list strings gmap.

Set Warnings "-register-all".
Local Open Scope string_scope.
Local Open Scope list_scope.
Local Open Scope Z_scope.

(** ** Exceptions and results *)

(** The classes of [compysition.errors] that [event.py] imports (lines
    37-39), and [OtherException] for any other subclass of [Exception]. *)
Inductive exc_class : Type :=
  | ResourceNotModified
  | MalformedEventData
  | InvalidEventDataModification
  | UnauthorizedEvent
  | ForbiddenEvent
  | ResourceNotFound
  | EventCommandNotAllowed
  | ActorTimeout
  | ResourceConflict
  | ResourceGone
  | UnprocessableEventData
  | EventRateExceeded
  | CompysitionException
  | ServiceUnavailable
  | OtherException (name : string).

#[global] Instance exc_class_eq_dec : EqDecision exc_class.
Proof. solve_decision. Defined.

(** What a call can raise: the built-in exceptions the module meets, an
    instance of an error class, or an unbound global name. *)
Inductive exn : Type :=
  | KeyError
  | ValueError
  | TypeError
  | IndexError
  | AttributeError
  | StopIteration
  | NameError (name : string)
  | Raised (c : exc_class).

#[global] Instance exn_eq_dec : EqDecision exn.
Proof. solve_decision. Defined.

Inductive result (A : Type) : Type :=
  | Ok (a : A)
  | Raise (e : exn).
Arguments Ok {A} a.
Arguments Raise {A} e.

Definition bind {A B : Type} (r : result A) (k : A -> result B) : result B :=
  match r with
  | Ok a => k a
  | Raise e => Raise e
  end.

Notation "x <- r ;; k" := (bind r (fun x => k))
  (at level 100, r at next level, right associativity).

Definition is_ok {A : Type} (r : result A) : bool :=
  match r with Ok _ => true | Raise _ => false end.

(** The names the module binds to error classes: the import list of lines
    37-39. Evaluating any other name in [raise Name(...)] raises
    [NameError], before the call and before the [raise]. *)
Definition lookup_exception (name : string) : result exc_class :=
  if String.eqb name "ResourceNotModified" then Ok ResourceNotModified
  else if String.eqb name "MalformedEventData" then Ok MalformedEventData
  else if String.eqb name "InvalidEventDataModification" then Ok InvalidEventDataModification
  else if String.eqb name "UnauthorizedEvent" then Ok UnauthorizedEvent
  else if String.eqb name "ForbiddenEvent" then Ok ForbiddenEvent
  else if String.eqb name "ResourceNotFound" then Ok ResourceNotFound
  else if String.eqb name "EventCommandNotAllowed" then Ok EventCommandNotAllowed
  else if String.eqb name "ActorTimeout" then Ok ActorTimeout
  else if String.eqb name "ResourceConflict" then Ok ResourceConflict
  else if String.eqb name "ResourceGone" then Ok ResourceGone
  else if String.eqb name "UnprocessableEventData" then Ok UnprocessableEventData
  else if String.eqb name "EventRateExceeded" then Ok EventRateExceeded
  else if String.eqb name "CompysitionException" then Ok CompysitionException
  else if String.eqb name "ServiceUnavailable" then Ok ServiceUnavailable
  else Raise (NameError name).

(** [raise Name(...)] for a class looked up in the module's globals. *)
Definition raise_named {A : Type} (name : string) : result A :=
  c <- lookup_exception name ;; Raise (Raised c).

(** ** Values *)

(** An lxml element: tag, attributes, text, children, tail. *)
Inductive xml : Type :=
  | Element (tag : string) (attrib : list (string * string))
            (text : option string) (children : list xml) (tail : option string).

(** Hashable keys of mappings and steps of a lookup path. *)
Inductive pykey : Type :=
  | KStr (s : string)
  | KInt (n : Z).

#[global] Instance pykey_eq_dec : EqDecision pykey.
Proof. solve_decision. Defined.

(** The values the model distinguishes. [VOpaque cls] is a value of a class
    that is not modelled further (float, Decimal, datetime, a bound method):
    it has no items, no length and no [get]. *)
Inductive pyval : Type :=
  | VNone
  | VBool (b : bool)
  | VInt (n : Z)
  | VStr (s : string)
  | VTuple (vs : list pyval)
  | VList (vs : list pyval)
  | VDict (kvs : list (pykey * pyval))
  | VXml (e : xml)
  | VExc (c : exc_class) (message : string)
  | VNull
  | VOpaque (cls : string).

(** The class of a value, as [data.__class__] sees it. *)
Inductive pyclass : Type :=
  | CNoneType
  | CBool
  | CInt
  | CStr
  | CTuple
  | CList
  | CDict
  | CXml
  | CExc (c : exc_class)
  | CNullLookupValue
  | COther (cls : string).

Definition class_of (v : pyval) : pyclass :=
  match v with
  | VNone => CNoneType
  | VBool _ => CBool
  | VInt _ => CInt
  | VStr _ => CStr
  | VTuple _ => CTuple
  | VList _ => CList
  | VDict _ => CDict
  | VXml _ => CXml
  | VExc c _ => CExc c
  | VNull => CNullLookupValue
  | VOpaque cls => COther cls
  end.

(** Python truth value, for [x or y] and [x if c else y]. An lxml element is
    true when it has children; values of unmodelled classes count as true. *)
Definition truthy (v : pyval) : bool :=
  match v with
  | VNone => false
  | VBool b => b
  | VInt n => negb (Z.eqb n 0)
  | VStr s => negb (String.eqb s "")
  | VTuple vs | VList vs => negb (Nat.eqb (length vs) 0)
  | VDict kvs => negb (Nat.eqb (length kvs) 0)
  | VXml (Element _ _ _ children _) => negb (Nat.eqb (length children) 0)
  | VExc _ _ | VNull | VOpaque _ => true
  end.

(** ** Mappings *)

Fixpoint dict_get (kvs : list (pykey * pyval)) (k : pykey) : option pyval :=
  match kvs with
  | [] => None
  | (k', v) :: rest => if decide (k' = k) then Some v else dict_get rest k
  end.

(** [d[k] = v]: replaces the value in place or appends a new item. *)
Fixpoint dict_set (kvs : list (pykey * pyval)) (k : pykey) (v : pyval)
  : list (pykey * pyval) :=
  match kvs with
  | [] => [(k, v)]
  | (k', v') :: rest =>
      if decide (k' = k) then (k', v) :: rest else (k', v') :: dict_set rest k v
  end.

(** [d.pop(k)] without the returned value. *)
Fixpoint dict_pop (kvs : list (pykey * pyval)) (k : pykey) : list (pykey * pyval) :=
  match kvs with
  | [] => []
  | (k', v') :: rest =>
      if decide (k' = k) then rest else (k', v') :: dict_pop rest k
  end.

(** [d.update(other)]. *)
Definition dict_update (kvs other : list (pykey * pyval)) : list (pykey * pyval) :=
  fold_left (fun acc kv => dict_set acc (fst kv) (snd kv)) other kvs.

(** ** Built-in operations on values *)

Definition isinstance_list (v : pyval) : bool :=
  match v with VList _ => true | _ => false end.

Definition isinstance_dict (v : pyval) : bool :=
  match v with VDict _ => true | _ => false end.

(** [len(v)]: [TypeError] for a value without a length. *)
Definition py_len (v : pyval) : result nat :=
  match v with
  | VStr s => Ok (String.length s)
  | VTuple vs | VList vs => Ok (length vs)
  | VDict kvs => Ok (length kvs)
  | VXml (Element _ _ _ children _) => Ok (length children)
  | _ => Raise TypeError
  end.

(** [next(v.iteritems())]: the first item of a mapping; [StopIteration] on
    an empty one, [AttributeError] on a value that is not a mapping. *)
Definition first_item (v : pyval) : result (pykey * pyval) :=
  match v with
  | VDict [] => Raise StopIteration
  | VDict (kv :: _) => Ok kv
  | _ => Raise AttributeError
  end.

(** Sequence indexing [l[i]] with Python's negative indices. *)
Definition seq_index {A : Type} (l : list A) (i : Z) : result A :=
  let n := Z.of_nat (length l) in
  let j := if i <? 0 then i + n else i in
  if (j <? 0) || (n <=? j) then Raise IndexError
  else match nth_error l (Z.to_nat j) with
       | Some x => Ok x
       | None => Raise IndexError
       end.

(** ** The JSON/XML envelope (lines 50-64) *)

Definition envelope_key : pykey := KStr "jsonified_envelope".

(** [{"jsonified_envelope": v}]. *)
Definition envelope (v : pyval) : pyval := VDict [(envelope_key, v)].

Definition internal_xmlify (_json : pyval) : result pyval :=
  wrap <- (if isinstance_list _json then Ok true
           else n <- py_len _json ;; Ok (1 <? n)%nat) ;;
  let _json := if wrap : bool then envelope _json else _json in
  item <- first_item _json ;;
  if isinstance_list (snd item) then Ok (envelope _json) else Ok _json.

Definition remove_internal_xmlify (_json : pyval) : result pyval :=
  n <- py_len _json ;;
  if (n =? 1)%nat && isinstance_dict _json then
    item <- first_item _json ;;
    if decide (fst item = envelope_key) then Ok (snd item) else Ok _json
  else Ok _json.

(** ** Text operations *)

(** Whitespace as [str.strip] and [int] see it. *)
Definition is_space (c : ascii) : bool :=
  let n := nat_of_ascii c in
  (Nat.eqb n 32 || (Nat.leb 9 n && Nat.leb n 13))%bool.

Fixpoint lstrip (l : list ascii) : list ascii :=
  match l with
  | c :: rest => if is_space c then lstrip rest else l
  | [] => []
  end.

(** [s.strip()]. *)
Definition py_strip (s : string) : string :=
  string_of_list_ascii
    (rev (lstrip (rev (lstrip (list_ascii_of_string s))))).

Definition digit_value (c : ascii) : option Z :=
  let n := nat_of_ascii c in
  if (Nat.leb 48 n && Nat.leb n 57)%bool then Some (Z.of_nat n - 48) else None.

Fixpoint parse_digits (acc : Z) (s : string) : option Z :=
  match s with
  | EmptyString => Some acc
  | String c rest =>
      match digit_value c with
      | Some d => parse_digits (10 * acc + d) rest
      | None => None
      end
  end.

(** [int(s)] on text: surrounding whitespace, an optional sign, decimal
    digits; anything else is a [ValueError]. *)
Definition py_int_str (s : string) : result Z :=
  let t := py_strip s in
  let '(negative, body) :=
    match t with
    | String c rest =>
        if Ascii.eqb c "-" then (true, rest)
        else if Ascii.eqb c "+" then (false, rest)
        else (false, t)
    | EmptyString => (false, t)
    end in
  match body with
  | EmptyString => Raise ValueError
  | _ => match parse_digits 0 body with
         | Some n => Ok (if negative then - n else n)
         | None => Raise ValueError
         end
  end.

(** [int(key)] on a path step. *)
Definition py_int (k : pykey) : result Z :=
  match k with
  | KInt n => Ok n
  | KStr s => py_int_str s
  end.

Definition is_status_separator (c : ascii) : bool :=
  (Ascii.eqb c " " || Ascii.eqb c "-")%bool.

Fixpoint split_first (s : string) : option (string * string) :=
  match s with
  | EmptyString => None
  | String c rest =>
      if is_status_separator c then Some (EmptyString, rest)
      else match split_first rest with
           | Some (before, after) => Some (String c before, after)
           | None => None
           end
  end.

(** [re.split(' |-', s, 1)]: at most one split, at the first space or
    hyphen. *)
Definition re_split_1 (s : string) : list string :=
  match split_first s with
  | Some (before, after) => [before; after]
  | None => [s]
  end.

(** [needle in haystack] on text. *)
Fixpoint is_substring (needle haystack : string) : bool :=
  (String.prefix needle haystack
   || match haystack with
      | EmptyString => false
      | String _ rest => is_substring needle rest
      end)%bool.

(** ** xmltodict.parse

    [xmltodict.parse(etree.tostring(data), expat=expat,
    force_list=should_force_list)] (line 419). The serialised tree is fed to
    expat, which reports it to xmltodict's handler as start-element,
    character-data and end-element events; the handler below follows the
    library's [_DictSAXHandler] under the options the call leaves at their
    defaults (attributes kept under the prefix [@], text under [#text],
    whitespace stripped, no namespaces, no postprocessor, item depth 0). *)

Inductive sax_event : Type :=
  | StartElement (name : string) (attrs : list (string * string))
  | Characters (content : string)
  | EndElement (name : string).

Definition characters_of (t : option string) : list sax_event :=
  match t with
  | Some s => if String.eqb s "" then [] else [Characters s]
  | None => []
  end.

Definition tail_of (e : xml) : option string :=
  match e with Element _ _ _ _ tail => tail end.

(** The events of an element: its start, its text, each child followed by
    the child's tail, its end. *)
Fixpoint sax_events (e : xml) : list sax_event :=
  match e with
  | Element tag attrib text children _ =>
      StartElement tag attrib :: characters_of text
        ++ flat_map (fun c => sax_events c ++ characters_of (tail_of c)) children
        ++ [EndElement tag]
  end.

Record handler : Type := {
  h_path : list (string * list (string * string));
  h_stack : list (option (list (pykey * pyval)) * list string);
  h_item : option (list (pykey * pyval));
  h_data : list string
}.

(** The callback type of [force_list]: path, key and value in, the answer
    and the value as the callback left it out (it may pop an entry). *)
Definition force_list_callback : Type :=
  list (string * list (string * string)) -> string -> pyval -> bool * pyval.

(** [should_force_list] (lines 376-410). *)
Definition should_force_list : force_list_callback :=
  fun path key value =>
    match value with
    | VDict kvs =>
        match dict_get kvs (KStr "@force_list") with
        | Some _ => (true, VDict (dict_pop kvs (KStr "@force_list")))
        | None => (false, value)
        end
    | _ => (false, value)
    end.

Definition push_data (force_list : force_list_callback)
    (path : list (string * list (string * string)))
    (item : option (list (pykey * pyval))) (key : string) (data : pyval)
  : list (pykey * pyval) :=
  let item := match item with Some d => d | None => [] end in
  match dict_get item (KStr key) with
  | Some (VList vs) => dict_set item (KStr key) (VList (vs ++ [data]))
  | Some value => dict_set item (KStr key) (VList [value; data])
  | None =>
      let '(force, data) := force_list (removelast path) key data in
      if force : bool then dict_set item (KStr key) (VList [data])
      else dict_set item (KStr key) data
  end.

Definition attrs_to_item (attrs : list (string * string))
  : option (list (pykey * pyval)) :=
  match attrs with
  | [] => None
  | _ => Some (map (fun kv => (KStr ("@" +:+ fst kv), VStr (snd kv))) attrs)
  end.

Definition handle (force_list : force_list_callback) (h : handler) (ev : sax_event)
  : handler :=
  match ev with
  | StartElement name attrs =>
      {| h_path := h_path h ++ [(name, attrs)];
         h_stack := h_stack h ++ [(h_item h, h_data h)];
         h_item := attrs_to_item attrs;
         h_data := [] |}
  | Characters content =>
      {| h_path := h_path h; h_stack := h_stack h; h_item := h_item h;
         h_data := h_data h ++ [content] |}
  | EndElement name =>
      match last (h_stack h) with
      | Some (parent_item, parent_data) =>
          let text :=
            match h_data h with
            | [] => None
            | chunks =>
                let s := py_strip (String.concat "" chunks) in
                if String.eqb s "" then None else Some s
            end in
          let new_item :=
            match h_item h with
            | Some item =>
                let item :=
                  match text with
                  | Some s => push_data force_list (h_path h) (Some item) "#text" (VStr s)
                  | None => item
                  end in
                push_data force_list (h_path h) parent_item name (VDict item)
            | None =>
                push_data force_list (h_path h) parent_item name
                  (match text with Some s => VStr s | None => VNone end)
            end in
          {| h_path := removelast (h_path h);
             h_stack := removelast (h_stack h);
             h_item := Some new_item;
             h_data := parent_data |}
      | None =>
          {| h_path := removelast (h_path h); h_stack := [];
             h_item := None; h_data := [] |}
      end
  end.

Definition xmltodict_parse (force_list : force_list_callback) (e : xml) : pyval :=
  let h := fold_left (handle force_list) (sax_events e)
             {| h_path := []; h_stack := []; h_item := None; h_data := [] |} in
  match h_item h with
  | Some item => VDict item
  | None => VNone
  end.

(** The converter of the JSON family for an XML tree (line 419). *)
Definition xml_to_json (e : xml) : result pyval :=
  remove_internal_xmlify (xmltodict_parse should_force_list e).

(** ** The classes of the module *)

Inductive klass : Type :=
  | object
  | DataFormatInterface
  | Event
  | HttpEvent
  | _XMLFormatInterface
  | _JSONFormatInterface
  | XMLEvent
  | JSONEvent
  | JSONHttpEvent
  | XMLHttpEvent
  | LogEvent.

#[global] Instance klass_eq_dec : EqDecision klass.
Proof. solve_decision. Defined.

(** [cls.__bases__], from the class statements. *)
Definition bases (c : klass) : list klass :=
  match c with
  | object => []
  | DataFormatInterface => [object]
  | Event => [object]
  | HttpEvent => [Event]
  | _XMLFormatInterface => [DataFormatInterface]
  | _JSONFormatInterface => [DataFormatInterface]
  | XMLEvent => [_XMLFormatInterface; Event]
  | JSONEvent => [_JSONFormatInterface; Event]
  | JSONHttpEvent => [JSONEvent; HttpEvent]
  | XMLHttpEvent => [XMLEvent; HttpEvent]
  | LogEvent => [Event]
  end.

(** [cls.__mro__]: the C3 linearisation of the bases above. *)
Definition mro (c : klass) : list klass :=
  match c with
  | object => [object]
  | DataFormatInterface => [DataFormatInterface; object]
  | Event => [Event; object]
  | HttpEvent => [HttpEvent; Event; object]
  | _XMLFormatInterface => [_XMLFormatInterface; DataFormatInterface; object]
  | _JSONFormatInterface => [_JSONFormatInterface; DataFormatInterface; object]
  | XMLEvent => [XMLEvent; _XMLFormatInterface; DataFormatInterface; Event; object]
  | JSONEvent => [JSONEvent; _JSONFormatInterface; DataFormatInterface; Event; object]
  | JSONHttpEvent =>
      [JSONHttpEvent; JSONEvent; _JSONFormatInterface; DataFormatInterface;
       HttpEvent; Event; object]
  | XMLHttpEvent =>
      [XMLHttpEvent; XMLEvent; _XMLFormatInterface; DataFormatInterface;
       HttpEvent; Event; object]
  | LogEvent => [LogEvent; Event; object]
  end.

(** [issubclass(c, d)]: [d] is [c] or is reached from [c] through bases.
    The hierarchy is five classes deep. *)
Fixpoint reaches (fuel : nat) (c d : klass) : bool :=
  (bool_decide (c = d)
   || match fuel with
      | O => false
      | S fuel' => existsb (fun b => reaches fuel' b d) (bases c)
      end)%bool.

Definition issubclass (c d : klass) : bool := reaches 5 c d.

(** [built_classes] (line 476). *)
Definition built_classes : list klass :=
  [Event; XMLEvent; JSONEvent; HttpEvent; JSONHttpEvent; XMLHttpEvent; LogEvent].

(** What a class body binds a name to. *)
Inductive class_attr : Type :=
  | Property (slot : string)
  | Method
  | ClassValue (v : pyval).

(** The names each class body defines. *)
Definition class_body (c : klass) : list (string * class_attr) :=
  match c with
  | Event =>
      [("_content_type", ClassValue (VStr "text/plain"));
       ("__init__", Method); ("set", Method); ("get", Method);
       ("data", Property "_data"); ("event_id", Property "_event_id");
       ("_list_get", Method); ("_getattr", Method); ("_obj_get", Method);
       ("lookup", Method); ("get_properties", Method);
       ("__getstate__", Method); ("__setstate__", Method); ("__str__", Method);
       ("error", Property "_error"); ("_set_error", Method);
       ("conversion_methods", ClassValue (VOpaque "defaultdict"));
       ("format_error", Method); ("error_string", Method);
       ("data_string", Method); ("convert", Method); ("clone", Method)]
  | HttpEvent =>
      [("content_type", ClassValue (VStr "text/plain"));
       ("__init__", Method); ("status", Property "_status");
       ("_set_error", Method); ("pagination", Property "_pagination")]
  | _XMLFormatInterface =>
      [("content_type", ClassValue (VStr "application/xml"));
       ("conversion_methods", ClassValue (VOpaque "dict"));
       ("__getstate__", Method); ("data_string", Method);
       ("format_error", Method); ("error_string", Method)]
  | _JSONFormatInterface =>
      [("content_type", ClassValue (VStr "application/json"));
       ("conversion_methods", ClassValue (VOpaque "dict"));
       ("__getstate__", Method); ("data_string", Method);
       ("error_string", Method)]
  | LogEvent => [("__init__", Method)]
  | object | DataFormatInterface | XMLEvent | JSONEvent
  | JSONHttpEvent | XMLHttpEvent => []
  end.

Fixpoint assoc {A : Type} (l : list (string * A)) (name : string) : option A :=
  match l with
  | [] => None
  | (n, a) :: rest => if String.eqb n name then Some a else assoc rest name
  end.

(** Attribute resolution on the class: the first class of the MRO whose
    body defines the name, with what it binds the name to. *)
Fixpoint resolve_in (l : list klass) (name : string) : option (klass * class_attr) :=
  match l with
  | [] => None
  | c :: rest =>
      match assoc (class_body c) name with
      | Some a => Some (c, a)
      | None => resolve_in rest name
      end
  end.

Definition resolve (c : klass) (name : string) : option (klass * class_attr) :=
  resolve_in (mro c) name.

(** ** Capability sets

    What an event type can do beyond the plain event: hold JSON, hold XML,
    carry the HTTP fields, or be a log record. Each capability is brought
    in by one class of the hierarchy. *)
Inductive capability : Type := JSON | XML | HTTP | LOG.

#[global] Instance capability_eq_dec : EqDecision capability.
Proof. solve_decision. Defined.

#[global] Instance capability_countable : Countable capability.
Proof.
  refine (inj_countable'
            (fun c => match c with JSON => 0%nat | XML => 1%nat | HTTP => 2%nat | LOG => 3%nat end)
            (fun n => match n with 0%nat => JSON | 1%nat => XML | 2%nat => HTTP | _ => LOG end) _).
  by intros [].
Defined.

Definition provides (c : klass) (by_class : klass) (cap : capability) : gset capability :=
  if issubclass c by_class then {[cap]} else ∅.

Definition capabilities (c : klass) : gset capability :=
  provides c _JSONFormatInterface JSON ∪ provides c _XMLFormatInterface XML
  ∪ provides c HttpEvent HTTP ∪ provides c LogEvent LOG.

(** ** Events *)

(** An instance: its class and its [__dict__]. *)
Record event : Type := {
  ev_class : klass;
  ev_dict : gmap string pyval
}.

(** [self.__dict__[name] = v]. *)
Definition set_slot (self : event) (name : string) (v : pyval) : event :=
  {| ev_class := ev_class self; ev_dict := <[name := v]> (ev_dict self) |}.

(** [self.__dict__[name]], [AttributeError] when absent. *)
Definition get_slot (self : event) (name : string) : result pyval :=
  match ev_dict self !! name with
  | Some v => Ok v
  | None => Raise AttributeError
  end.

(** The property getters: [data], [error], [event_id], [status],
    [pagination] each return their underscore slot. *)
Definition get_data (self : event) : result pyval := get_slot self "_data".
Definition get_error (self : event) : result pyval := get_slot self "_error".
Definition get_status (self : event) : result pyval := get_slot self "_status".
Definition get_pagination (self : event) : result pyval := get_slot self "_pagination".

(** ** Methods

    A method runs on an instance and mutates it in place: it takes the
    instance and returns the instance as it left it together with its
    outcome. When it raises, the assignments made before the [raise]
    stay. *)
Definition method (A : Type) : Type := event -> event * result A.

Definition ret {A : Type} (a : A) : method A := fun self => (self, Ok a).

Definition lift {A : Type} (r : result A) : method A := fun self => (self, r).

Definition and_then {A B : Type} (m : method A) (k : A -> method B) : method B :=
  fun self =>
    match m self with
    | (self', Ok a) => k a self'
    | (self', Raise e) => (self', Raise e)
    end.

Notation "x <~ m ;; k" := (and_then m (fun x => k))
  (at level 100, m at next level, right associativity).

(** [self.name = v] for a plain attribute, and [self.name]. *)
Definition setattr (name : string) (v : pyval) : method unit :=
  fun self => (set_slot self name v, Ok tt).

Definition getattr (name : string) : method pyval :=
  fun self => (self, get_slot self name).

(** [self.__dict__.update(kwargs)]. *)
Definition update_dict (kwargs : gmap string pyval) : method unit :=
  fun self => ({| ev_class := ev_class self; ev_dict := kwargs ∪ ev_dict self |}, Ok tt).

(** [cls.__new__(cls)] followed by an initialiser: the caller gets the
    instance only when the initialiser returns. *)
Definition construct (cls : klass) (init : method unit) : result event :=
  match init {| ev_class := cls; ev_dict := ∅ |} with
  | (self, Ok _) => Ok self
  | (_, Raise e) => Raise e
  end.

(** ** The libraries *)

(** [json.loads], [json.dumps(_, default=f)], [etree.fromstring] and
    [xmltodict.unparse]: each takes a value and returns one or raises. *)
Record pylib : Type := {
  json_loads : pyval -> result pyval;
  json_dumps : (pyval -> result pyval) -> pyval -> result pyval;
  etree_fromstring : pyval -> result pyval;
  xmltodict_unparse : pyval -> result pyval
}.

(** [decimal_default] (lines 370-374). *)
Definition decimal_default (obj : pyval) : result pyval :=
  match obj with
  | VOpaque cls => if String.eqb cls "Decimal" then Ok (VOpaque "float") else Raise TypeError
  | _ => Raise TypeError
  end.

(** ** Conversion tables and the payload setter *)

Section Conversion.
Variable lib : pylib.

(** [Event.conversion_methods] (line 224): a defaultdict whose default is
    the identity. *)
Definition Event_conversion_methods (c : pyclass) : option (pyval -> result pyval) :=
  Some (fun data => Ok data).

(** [_XMLFormatInterface.conversion_methods] (lines 326-329). The
    [encode('utf-8')] between [unparse] and [fromstring] changes nothing in a
    model with one kind of text. *)
Definition XML_conversion_methods (c : pyclass) : option (pyval -> result pyval) :=
  match c with
  | CStr => Some (fun data => etree_fromstring lib data)
  | CXml => Some (fun data => Ok data)
  | CDict | CList =>
      Some (fun data =>
              wrapped <- internal_xmlify data ;;
              text <- xmltodict_unparse lib wrapped ;;
              etree_fromstring lib text)
  | CNoneType => Some (fun data => etree_fromstring lib (VStr "<root/>"))
  | _ => None
  end.

(** [_JSONFormatInterface.conversion_methods] (lines 417-420). *)
Definition JSON_conversion_methods (c : pyclass) : option (pyval -> result pyval) :=
  match c with
  | CStr => Some (fun data => json_loads lib data)
  | CDict | CList =>
      Some (fun data =>
              text <- json_dumps lib decimal_default data ;;
              json_loads lib text)
  | CXml =>
      Some (fun data =>
              match data with
              | VXml e => xml_to_json e
              | _ => Raise TypeError
              end)
  | CNoneType => Some (fun data => Ok (VDict []))
  | _ => None
  end.

(** [self.conversion_methods]: the table of the first class in the MRO
    that defines one. *)
Definition conversion_methods (c : klass)
  : result (pyclass -> option (pyval -> result pyval)) :=
  match resolve c "conversion_methods" with
  | Some (_XMLFormatInterface, _) => Ok XML_conversion_methods
  | Some (_JSONFormatInterface, _) => Ok JSON_conversion_methods
  | Some (_, _) => Ok Event_conversion_methods
  | None => Raise AttributeError
  end.

(** The value the [data] setter stores (lines 142-152): the table entry
    for the class of the value applied to it. A missing entry
    ([KeyError]) and anything the converter raises end as
    [InvalidEventDataModification]. *)
Definition convert_data (c : klass) (data : pyval) : result pyval :=
  table <- conversion_methods c ;;
  match table (class_of data) with
  | None => raise_named "InvalidEventDataModification"
  | Some converter =>
      match converter data with
      | Ok v => Ok v
      | Raise _ => raise_named "InvalidEventDataModification"
      end
  end.

Definition set_data (data : pyval) : method unit :=
  fun self =>
    (v <~ lift (convert_data (ev_class self) data) ;;
     setattr "_data" v) self.

(** ** Event.convert (lines 250-270) *)

(** The class [convert] instantiates. *)
Definition convert_class (self_class convert_to : klass) : result klass :=
  if issubclass convert_to self_class then
    Ok convert_to
  else if negb (issubclass self_class convert_to) then
    let new_bases :=
      convert_to ::
        filter (fun cls => negb (issubclass cls DataFormatInterface)
                           && negb (issubclass convert_to cls))
               (bases self_class ++ [self_class]) in
    match new_bases with
    | [only] => Ok only
    | _ =>
        match filter (fun cls => bool_decide (bases cls = new_bases)) built_classes with
        | found :: _ => Ok found
        | [] => Raise IndexError
        end
    end
  else raise_named "InvalidEventConversion".

(** [new_class.__new__(new_class)], [__dict__.update(self.__dict__)],
    then the [data] setter of the new class on [self.data]. *)
Definition convert (self : event) (convert_to : klass) : result event :=
  new_class <- convert_class (ev_class self) convert_to ;;
  construct new_class
    (_ <~ update_dict (ev_dict self) ;;
     data <~ lift (get_data self) ;;
     set_data data).

End Conversion.

(** ** The HTTP slots of HttpEvent *)

(** The [status] setter (lines 292-299): a tuple is stored as it is, text
    is split once at a space or hyphen and stored as [(int(code), reason)]
    when the split gave two parts, and nothing else is stored. *)
Definition set_status (status : pyval) : method unit :=
  match status with
  | VTuple _ => setattr "_status" status
  | VStr s =>
      match re_split_1 s with
      | [code; reason] =>
          n <~ lift (py_int_str code) ;;
          setattr "_status" (VTuple [VInt n; VStr reason])
      | _ => ret tt
      end
  | _ => ret tt
  end.

(** The header value [Basic realm="Compysition Server"]. *)
Definition www_authenticate : string :=
  "Basic realm=" +:+ String (ascii_of_nat 34) ("Compysition Server" +:+ String (ascii_of_nat 34) EmptyString).

Definition status_entry (code : Z) (reason : string) : pykey * pyval :=
  (KStr "status", VTuple [VInt code; VStr reason]).

(** [http_code_map] (lines 479-497): a defaultdict from the class of the
    error to a mapping with a [status] and, for one class, [headers]; the
    default is the 500 entry. *)
Definition http_code_map (c : pyclass) : list (pykey * pyval) :=
  match c with
  | CExc ResourceNotModified => [status_entry 304 "Not Modified"]
  | CExc MalformedEventData => [status_entry 400 "Bad Request"]
  | CExc InvalidEventDataModification => [status_entry 400 "Bad Request"]
  | CExc UnauthorizedEvent =>
      [status_entry 401 "Unauthorized";
       (KStr "headers",
        VDict [(KStr "WWW-Authenticate", VStr www_authenticate)])]
  | CExc ForbiddenEvent => [status_entry 403 "Forbidden"]
  | CExc ResourceNotFound => [status_entry 404 "Not Found"]
  | CExc EventCommandNotAllowed => [status_entry 405 "Method Not Allowed"]
  | CExc ActorTimeout => [status_entry 408 "Request Timeout"]
  | CExc ResourceConflict => [status_entry 409 "Conflict"]
  | CExc ResourceGone => [status_entry 410 "Gone"]
  | CExc UnprocessableEventData => [status_entry 422 "Unprocessable Entity"]
  | CExc EventRateExceeded => [status_entry 429 "Too Many Requests"]
  | CExc CompysitionException => [status_entry 500 "Internal Server Error"]
  | CExc ServiceUnavailable => [status_entry 503 "Service Unavailable"]
  | CNoneType => [status_entry 200 "OK"]
  | _ => [status_entry 500 "Internal Server Error"]
  end.

(** [target.update(other)] on values: only a mapping has [update]. *)
Definition py_update (target other : pyval) : result pyval :=
  match target with
  | VDict kvs =>
      match other with
      | VDict more => Ok (VDict (dict_update kvs more))
      | _ => Raise TypeError
      end
  | _ => Raise AttributeError
  end.

(** [Event._set_error] (lines 221-222). *)
Definition Event__set_error (exception : pyval) : method unit :=
  setattr "_error" exception.

(** [HttpEvent._set_error] (lines 301-307). *)
Definition HttpEvent__set_error (exception : pyval) : method unit :=
  _ <~ match exception with
       | VExc c _ =>
           let error_state := http_code_map (CExc c) in
           _ <~ set_status (default VNone (dict_get error_state (KStr "status"))) ;;
           headers <~ getattr "headers" ;;
           headers <~ lift (py_update headers
                              (default (VDict []) (dict_get error_state (KStr "headers")))) ;;
           setattr "headers" headers
       | _ => ret tt
       end ;;
  Event__set_error exception.

(** The [error] setter (lines 217-219): [self._set_error] of the class. *)
Definition set_error (exception : pyval) : method unit :=
  fun self =>
    match resolve (ev_class self) "_set_error" with
    | Some (HttpEvent, _) => HttpEvent__set_error exception self
    | Some (_, _) => Event__set_error exception self
    | None => (self, Raise AttributeError)
    end.

(** [name in container]. Text is searched for a substring, a sequence for
    an equal element, a mapping for a key, an element's children never
    equal text, an exception is searched through its arguments. *)
Definition py_contains (container : pyval) (name : string) : result bool :=
  let is_name v := match v with VStr s => String.eqb s name | _ => false end in
  match container with
  | VDict kvs => Ok (bool_decide (is_Some (dict_get kvs (KStr name))))
  | VList vs | VTuple vs => Ok (existsb is_name vs)
  | VStr s => Ok (is_substring name s)
  | VXml _ => Ok false
  | VExc _ message => Ok (String.eqb message name)
  | VNone | VBool _ | VInt _ | VNull | VOpaque _ => Raise TypeError
  end.

(** The [pagination] setter (lines 313-318). *)
Definition set_pagination (pagination_dict : pyval) : method unit :=
  has_limit <~ lift (py_contains pagination_dict "limit") ;;
  has_both <~ lift (if has_limit : bool then py_contains pagination_dict "offset"
                    else Ok false) ;;
  if has_both : bool then setattr "_pagination" pagination_dict
  else lift (Raise ValueError).

(** [obj.get(key, default)] on values. *)
Definition py_get (obj : pyval) (key : pykey) (fallback : pyval) : result pyval :=
  match obj with
  | VDict kvs => Ok (default fallback (dict_get kvs key))
  | VXml (Element _ attrib _ _ _) =>
      match key with
      | KStr name => Ok (default fallback (VStr <$> assoc attrib name))
      | KInt _ => Raise TypeError
      end
  | VNull => Ok VNull
  | _ => Raise AttributeError
  end.

(** ** Construction *)

Definition DEFAULT_EVENT_SERVICE : string := "default".

(** The [event_id] setter (lines 158-163); [_event_id] is an instance
    attribute only, so [self.get("_event_id", None)] reads the instance. *)
Definition set_event_id (event_id : pyval) : method unit :=
  fun self =>
    if truthy (default VNone (ev_dict self !! "_event_id"))
    then (self, raise_named "InvalidEventDataModification")
    else setattr "_event_id" event_id self.

Section Construction.
Variable lib : pylib.
(** [uuid().get_hex()] and [datetime.now()] at the time of the call. *)
Variable uuid_hex : string.
Variable now : pyval.

(** [Event.__init__] (lines 116-123). *)
Definition Event__init__ (meta_id service data : pyval)
    (kwargs : gmap string pyval) : method unit :=
  _ <~ set_event_id (VStr uuid_hex) ;;
  event_id <~ getattr "_event_id" ;;
  _ <~ setattr "meta_id" (if truthy meta_id then meta_id else event_id) ;;
  _ <~ setattr "service"
         (if truthy service then service else VStr DEFAULT_EVENT_SERVICE) ;;
  _ <~ set_data lib data ;;
  _ <~ set_error VNone ;;
  _ <~ setattr "created" now ;;
  update_dict kwargs.

(** [HttpEvent.__init__] (lines 280-286). *)
Definition HttpEvent__init__ (headers status environment pagination : pyval)
    (meta_id service data : pyval) (kwargs : gmap string pyval) : method unit :=
  _ <~ setattr "headers" (if truthy headers then headers else VDict []) ;;
  request_method <~ lift (py_get environment (KStr "REQUEST_METHOD") VNone) ;;
  _ <~ setattr "method" request_method ;;
  _ <~ set_status status ;;
  _ <~ setattr "environment" environment ;;
  _ <~ setattr "_pagination" pagination ;;
  Event__init__ meta_id service data kwargs.

(** [cls(...)] for a class whose [__init__] is [Event.__init__]. *)
Definition new_Event (cls : klass) (meta_id service data : pyval)
    (kwargs : gmap string pyval) : result event :=
  construct cls (Event__init__ meta_id service data kwargs).

(** [cls(...)] for a class whose [__init__] is [HttpEvent.__init__]. *)
Definition new_HttpEvent (cls : klass)
    (headers status environment pagination : pyval)
    (meta_id service data : pyval) (kwargs : gmap string pyval) : result event :=
  construct cls
    (HttpEvent__init__ headers status environment pagination
       meta_id service data kwargs).

End Construction.

(** ** Event.lookup (lines 165-193) *)

(** The objects a lookup walks through: the event itself, then values. *)
Inductive target : Type :=
  | OEvent (e : event)
  | OVal (v : pyval).

(** What a caller passes as the path: one key (a [str]), a list of keys
    and indices, and the two other forms a path is likely to take, one key
    that is a [unicode] and a tuple of keys and indices. The steps of a
    list or tuple are [str] or [int]. *)
Inductive lookup_path : Type :=
  | PathKey (s : string)
  | PathList (keys : list pykey)
  | PathUnicode (s : string)
  | PathTuple (keys : list pykey).

Section Lookup.
(** The attributes of built-in and library values (the bound methods of a
    mapping, a list, text, an lxml element, ...), and what an instance
    inherits from [object] ([__class__], [__doc__], ...): the runtime's
    tables, left open. *)
Variable builtin_attr : pyval -> string -> option pyval.
Variable object_attr : event -> string -> option pyval.
(** What lxml does with the argument of [Element.get(name)] and of
    [Element[i]] before it looks: the exception it raises for a name or an
    index it rejects (an empty name is a [ValueError], an index that does
    not fit a machine word an [OverflowError]), nothing when it goes on to
    look. The library's checks, left open. *)
Variable element_name_error : string -> option exn.
Variable element_index_error : Z -> option exn.

(** [obj[i]]. An instance of an event class has no [__getitem__]. *)
Definition py_getitem (obj : target) (i : Z) : result target :=
  match obj with
  | OEvent _ => Raise TypeError
  | OVal (VList vs) | OVal (VTuple vs) => v <- seq_index vs i ;; Ok (OVal v)
  | OVal (VStr s) =>
      c <- seq_index (list_ascii_of_string s) i ;;
      Ok (OVal (VStr (String c EmptyString)))
  | OVal (VDict kvs) =>
      match dict_get kvs (KInt i) with
      | Some v => Ok (OVal v)
      | None => Raise KeyError
      end
  | OVal (VXml (Element _ _ _ children _)) =>
      match element_index_error i with
      | Some e => Raise e
      | None => c <- seq_index children i ;; Ok (OVal (VXml c))
      end
  | OVal (VExc _ message) => v <- seq_index [VStr message] i ;; Ok (OVal v)
  | OVal (VNone | VBool _ | VInt _ | VNull | VOpaque _) => Raise TypeError
  end.

(** Attribute lookup on an event: a property reads its slot, then the
    instance dictionary, then the other class attributes, then [object]. *)
Definition event_getattr (e : event) (name : string) : option pyval :=
  match resolve (ev_class e) name with
  | Some (_, Property slot) => ev_dict e !! slot
  | found =>
      match ev_dict e !! name with
      | Some v => Some v
      | None =>
          match found with
          | Some (_, Method) => Some (VOpaque "instancemethod")
          | Some (_, ClassValue v) => Some v
          | _ => object_attr e name
          end
      end
  end.

(** [getattr(obj, key)] without a default: [None] stands for the
    [AttributeError]; a key that is not text is a [TypeError]. *)
Definition py_getattr (obj : target) (key : pykey) : result (option target) :=
  match key with
  | KInt _ => Raise TypeError
  | KStr name =>
      match obj with
      | OEvent e => Ok (OVal <$> event_getattr e name)
      | OVal VNull =>
          if String.eqb name "get" then Ok (Some (OVal (VOpaque "instancemethod")))
          else Ok (OVal <$> builtin_attr VNull name)
      | OVal v => Ok (OVal <$> builtin_attr v name)
      end
  end.

(** [Event.get(key, default)] (lines 132-136) with a default given: the
    sentinel [DEFAULT] is never the value found. *)
Definition Event_get (e : event) (key : pykey) (fallback : target) : result target :=
  found <- py_getattr (OEvent e) key ;;
  Ok (default fallback found).

(** [obj.get(key, default)]: the method of the event, of a mapping, of an
    element or of [NullLookupValue] (lines 68-69, which returns itself);
    other values have no [get]. On an event the name [get] is looked up in
    the instance first: an attribute of that name stored in the instance
    shadows the method, and calling a value of the model is a
    [TypeError]. *)
Definition py_call_get (obj : target) (key : pykey) (fallback : target) : result target :=
  match obj with
  | OEvent e =>
      match ev_dict e !! "get" with
      | Some _ => Raise TypeError
      | None => Event_get e key fallback
      end
  | OVal (VDict kvs) => Ok (default fallback (OVal <$> dict_get kvs key))
  | OVal (VXml (Element _ attrib _ _ _)) =>
      match key with
      | KStr name =>
          match element_name_error name with
          | Some e => Raise e
          | None =>
              Ok (default fallback ((fun s => OVal (VStr s)) <$> assoc attrib name))
          end
      | KInt _ => Raise TypeError
      end
  | OVal VNull => Ok (OVal VNull)
  | OVal _ => Raise AttributeError
  end.

(** [_list_get] (lines 165-169). *)
Definition _list_get (obj : target) (key : pykey) (fallback : target) : result target :=
  match (i <- py_int key ;; py_getitem obj i) with
  | Ok v => Ok v
  | Raise (ValueError | IndexError | TypeError | KeyError | AttributeError) => Ok fallback
  | Raise e => Raise e
  end.

(** [_getattr] (lines 171-175). *)
Definition _getattr (obj : target) (key : pykey) (fallback : target) : result target :=
  match py_getattr obj key with
  | Ok found => Ok (default fallback found)
  | Raise TypeError => Ok fallback
  | Raise e => Raise e
  end.

(** [_obj_get] (lines 177-181). *)
Definition _obj_get (obj : target) (key : pykey) (fallback : target) : result target :=
  match py_call_get obj key fallback with
  | Ok v => Ok v
  | Raise (TypeError | AttributeError) => Ok fallback
  | Raise e => Raise e
  end.

(** The function [lookup] folds over the path (line 190): the default of
    each accessor is the result of the one evaluated before it. *)
Definition lookup_step (obj : target) (key : pykey) : result target :=
  by_index <- _list_get obj key (OVal VNull) ;;
  by_attribute <- _getattr obj key by_index ;;
  _obj_get obj key by_attribute.

(** [reduce(f, [first] + keys)]. *)
Fixpoint reduce (f : target -> pykey -> result target) (acc : target)
    (keys : list pykey) : result target :=
  match keys with
  | [] => Ok acc
  | key :: rest => next <- f acc key ;; reduce f next rest
  end.

(** The keys [lookup] folds over (lines 187-190): a [str] is put in a
    list; [[self] + path] then needs a list, and with anything else it is a
    [TypeError], raised outside every [try]. *)
Definition path_keys (path : lookup_path) : result (list pykey) :=
  match path with
  | PathKey s => Ok [KStr s]
  | PathList keys => Ok keys
  | PathUnicode _ | PathTuple _ => Raise TypeError
  end.

(** The end of [lookup] (lines 191-192): the sentinel becomes [None]. *)
Definition absent_to_None (value : target) : target :=
  match value with
  | OVal VNull => OVal VNone
  | _ => value
  end.

Definition lookup (self : event) (path : lookup_path) : result target :=
  keys <- path_keys path ;;
  value <- reduce lookup_step (OEvent self) keys ;;
  Ok (absent_to_None value).

(** What each of the three accesses finds at one step, if anything: the
    item at the index the key parses to, the attribute named by the key,
    and what [get] returns for the key besides its default. *)
Definition index_access (obj : target) (key : pykey) : option target :=
  match (i <- py_int key ;; py_getitem obj i) with
  | Ok v => Some v
  | Raise _ => None
  end.

Definition attribute_access (obj : target) (key : pykey) : option target :=
  match py_getattr obj key with
  | Ok found => found
  | Raise _ => None
  end.

Definition mapping_access (obj : target) (key : pykey) : option target :=
  match obj with
  | OEvent e =>
      match ev_dict e !! "get" with
      | Some _ => None
      | None => attribute_access obj key
      end
  | OVal (VDict kvs) => OVal <$> dict_get kvs key
  | OVal (VXml (Element _ attrib _ _ _)) =>
      match key with
      | KStr name =>
          match element_name_error name with
          | Some _ => None
          | None => (fun s => OVal (VStr s)) <$> assoc attrib name
          end
      | KInt _ => None
      end
  | OVal VNull => Some (OVal VNull)
  | OVal _ => None
  end.

(** The walk in the words of the specification. A step yields what the
    mapping-key access finds, else what the attribute access finds, else
    the item at the index, else the sentinel that stands for absent. *)
Definition found_at (obj : target) (key : pykey) : target :=
  default
    (default
       (default (OVal VNull) (index_access obj key))
       (attribute_access obj key))
    (mapping_access obj key).

(** The value a path leads to from [obj]. *)
Fixpoint walk (obj : target) (keys : list pykey) : target :=
  match keys with
  | [] => obj
  | key :: rest => walk (found_at obj key) rest
  end.

(** lxml accepts every step of the path, as a name and, where the step
    reads as an integer, as an index: what it raises otherwise is caught by
    none of the three wrappers. *)
Definition accepted_by_lxml (keys : list pykey) : Prop :=
  (forall name, KStr name ∈ keys -> element_name_error name = None)
  /\ (forall key i, key ∈ keys -> py_int key = Ok i -> element_index_error i = None).

End Lookup.

(** ** Example values *)

(** [<root><item force_list="true"><amount>85</amount></item></root>]. *)
Definition force_list_example : xml :=
  Element "root" [] None
    [Element "item" [("force_list", "true")] None
       [Element "amount" [] (Some "85") [] None] None] None.

Definition item_list : pyval :=
  VDict [(KStr "item", VList [VDict [(KStr "amount", VStr "85")]])].

(** An HTTP event as the constructor leaves it with its defaults. *)
Definition fresh_http_event : event :=
  {| ev_class := HttpEvent;
     ev_dict := {[ "headers" := VDict [];
                   "_status" := VTuple [VInt 200; VStr "OK"];
                   "_error" := VNone ]} |}.

(** The same event after [error = UnauthorizedEvent("denied")]. *)
Definition unauthorized_event : event :=
  {| ev_class := HttpEvent;
     ev_dict := {[ "headers" := VDict [(KStr "WWW-Authenticate", VStr www_authenticate)];
                   "_status" := VTuple [VInt 401; VStr "Unauthorized"];
                   "_error" := VExc UnauthorizedEvent "denied" ]} |}.

(** A plain event holding the integer 5, and a JSON event holding [{}]. *)
Definition int_event : event :=
  {| ev_class := Event; ev_dict := {[ "_data" := VInt 5 ]} |}.

Definition json_event : event :=
  {| ev_class := JSONEvent; ev_dict := {[ "_data" := VDict [] ]} |}.

(** A JSON event with the HTTP fields. *)
Definition json_http_event : event :=
  {| ev_class := JSONHttpEvent;
     ev_dict := {[ "_data" := VDict []; "headers" := VDict [];
                   "_status" := VTuple [VInt 200; VStr "OK"] ]} |}.

(** The event types of the six payload and HTTP combinations. *)
Definition format_classes : list klass :=
  [Event; XMLEvent; JSONEvent; HttpEvent; JSONHttpEvent; XMLHttpEvent].

(** The two payload-format capabilities. *)
Definition data_formats : gset capability := {[JSON; XML]}.

(** A fragment of the libraries, enough to run examples: the empty JSON
    documents, the empty root element, nothing else. *)
Definition example_lib : pylib :=
  {| json_loads := fun text =>
       match text with
       | VStr s => if String.eqb s "{}" then Ok (VDict [])
                   else if String.eqb s "[]" then Ok (VList [])
                   else Raise ValueError
       | _ => Raise TypeError
       end;
     json_dumps := fun _ data =>
       match data with
       | VDict [] => Ok (VStr "{}")
       | VList [] => Ok (VStr "[]")
       | _ => Raise TypeError
       end;
     etree_fromstring := fun text =>
       match text with
       | VStr s => if String.eqb s "<root/>" then Ok (VXml (Element "root" [] None [] None))
                   else Raise ValueError
       | _ => Raise TypeError
       end;
     xmltodict_unparse := fun _ => Raise ValueError |}.

(** What [convert] returns when it rebuilds [self] as class [c] from the
    payload [d]: the setter of [c] accepts [d] and the result is an instance
    of [c] with the attributes of [self] and the converted payload in
    [_data], or the setter rejects [d] and [convert] raises
    [InvalidEventDataModification]. *)
Definition rebuilt_as (lib : pylib) (self : event) (c : klass) (d : pyval)
    (r : result event) : Prop :=
  (exists v,
      convert_data lib c d = Ok v
      /\ r = Ok {| ev_class := c; ev_dict := <["_data" := v]> (ev_dict self) |})
  \/ (convert_data lib c d = Raise (Raised InvalidEventDataModification)
      /\ r = Raise (Raised InvalidEventDataModification)).

(** Text that the [status] setter would split: it holds a space or a
    hyphen. *)
Definition has_status_separator (s : string) : bool :=
  existsb is_status_separator (list_ascii_of_string s).

(** A mapping that has [limit] but no [offset]. *)
Definition limit_only : pyval := VDict [(KStr "limit", VInt 10)].

(** A method leaves the attribute [name] of the instance as it found it,
    whatever its outcome. *)
Definition preserves {A : Type} (name : string) (m : method A) : Prop :=
  forall self after r, m self = (after, r) ->
    ev_dict after !! name = ev_dict self !! name.

(** Attribute tables with no entry, for running [lookup] on examples. *)
Definition no_builtin_attr : pyval -> string -> option pyval := fun _ _ => None.
Definition no_object_attr : event -> string -> option pyval := fun _ _ => None.

(** The checks of lxml, as far as the examples need them: an empty name is
    a [ValueError], an index beyond 64 bits an [OverflowError], and every
    other name and index is looked up. *)
Definition lxml_name_error : string -> option exn :=
  fun name => if String.eqb name "" then Some ValueError else None.
Definition lxml_index_error : Z -> option exn :=
  fun i =>
    if (i <? - 2 ^ 63) || (2 ^ 63 <=? i)
    then Some (Raised (OtherException "OverflowError")) else None.

(** A step these checks let through. *)
Definition plain_step (key : pykey) : bool :=
  negb (bool_decide (key = KStr ""))
  && match py_int key with
     | Ok i => (- 2 ^ 63 <=? i) && (i <? 2 ^ 63)
     | Raise _ => true
     end.

(** A JSON event holding [{"items": [{"amount": "85"}]}]. *)
Definition order_event : event :=
  {| ev_class := JSONEvent;
     ev_dict := {[ "_data" := VDict [(KStr "items",
                                      VList [VDict [(KStr "amount", VStr "85")]])];
                   "service" := VStr "default" ]} |}.

(** An attribute table in which a mapping has its [items] method. *)
Definition mapping_methods : pyval -> string -> option pyval :=
  fun v name =>
    match v with
    | VDict _ =>
        if String.eqb name "items" then Some (VOpaque "builtin_function_or_method")
        else None
    | _ => None
    end.

(** ** Attribute assignment, Event.set and Event.get (lines 125-136) *)

Section Accessors.
Variable lib : pylib.
Variable object_attr : event -> string -> option pyval.







End Accessors.

(** [get_properties] (lines 195-200): the instance dictionary without the
    payload. *)
Definition get_properties (self : event) : gmap string pyval :=
  filter (fun kv => fst kv <> "data" /\ fst kv <> "_data") (ev_dict self).

(** ** Copying: __getstate__, __setstate__ and clone *)

Section Clone.
Variable lib : pylib.
(** [etree.tostring]. *)
Variable etree_tostring : pyval -> result pyval.

(** [json.dumps(data)] with no [default]: a value the encoder does not know
    is a [TypeError]. *)
Definition no_default (obj : pyval) : result pyval := Raise TypeError.

(** [Event.__getstate__] (lines 202-203). *)
Definition Event__getstate__ (self : event) : result (gmap string pyval) :=
  Ok (ev_dict self).

(** [_XMLFormatInterface.__getstate__] (lines 331-334). *)
Definition XML__getstate__ (self : event) : result (gmap string pyval) :=
  state <- Event__getstate__ self ;;
  data <- get_data self ;;
  text <- etree_tostring data ;;
  Ok (<["_data" := text]> state).

(** [_JSONFormatInterface.__getstate__] (lines 422-425). *)
Definition JSON__getstate__ (self : event) : result (gmap string pyval) :=
  state <- Event__getstate__ self ;;
  data <- get_data self ;;
  text <- json_dumps lib no_default data ;;
  Ok (<["_data" := text]> state).

(** [self.__getstate__()] of the class. *)
Definition getstate (self : event) : result (gmap string pyval) :=
  match resolve (ev_class self) "__getstate__" with
  | Some (_XMLFormatInterface, _) => XML__getstate__ self
  | Some (_JSONFormatInterface, _) => JSON__getstate__ self
  | Some (_, _) => Event__getstate__ self
  | None => Raise AttributeError
  end.

(** [Event.__setstate__] (lines 205-208). *)
Definition Event__setstate__ (state : gmap string pyval) : method unit :=
  _ <~ (fun self => ({| ev_class := ev_class self; ev_dict := state |}, Ok tt)) ;;
  data <~ lift (match state !! "_data" with
                | Some v => Ok v
                | None => Raise KeyError
                end) ;;
  _ <~ set_data lib data ;;
  set_error (default VNone (state !! "_error")).

(** [clone] (lines 272-273) is [deepcopy(self)]. [deepcopy] takes the state
    from [__getstate__], copies it, makes an instance with [__new__] and,
    unless the state is empty, hands the copy to [__setstate__]. Values
    have no identity here, so the copy of the state is the state. (From
    Python 2.7.12 on an empty state is handed over too; the statements
    about [clone] are about events that have attributes.) *)
Definition clone (self : event) : result event :=
  state <- getstate self ;;
  if decide (state = ∅) then Ok {| ev_class := ev_class self; ev_dict := ∅ |}
  else construct (ev_class self) (Event__setstate__ state).

End Clone.

(** ** LogEvent (lines 456-474) *)

Section LogEvents.
Variable lib : pylib.
(** [uuid().get_hex()], and the formatted [datetime.now()]. *)
Variable uuid_hex : string.
Variable time : pyval.

(** [LogEvent.__init__]; [Event.__init__] is not called. *)
Definition LogEvent__init__ (level origin_actor message id sensitive : pyval)
  : method unit :=
  _ <~ setattr "id" id ;;
  _ <~ set_event_id (VStr uuid_hex) ;;
  event_id <~ getattr "_event_id" ;;
  _ <~ setattr "meta_id" (if truthy id then id else event_id) ;;
  _ <~ setattr "level" level ;;
  _ <~ setattr "time" time ;;
  _ <~ setattr "origin_actor" origin_actor ;;
  _ <~ setattr "message" message ;;
  _ <~ setattr "sensitive" sensitive ;;
  set_data lib (VDict [(KStr "id", id); (KStr "level", level); (KStr "time", time);
                       (KStr "origin_actor", origin_actor);
                       (KStr "message", message)]).

Definition new_LogEvent (level origin_actor message id sensitive : pyval)
  : result event :=
  construct LogEvent (LogEvent__init__ level origin_actor message id sensitive).

End LogEvents.

(** ** Further example values *)

(** The status the table gives the class of an error. *)
Definition table_status (c : exc_class) : pyval :=
  default VNone (dict_get (http_code_map (CExc c)) (KStr "status")).

(** The headers the table gives the class of an error. *)
Definition table_headers (c : exc_class) : list (pykey * pyval) :=
  match dict_get (http_code_map (CExc c)) (KStr "headers") with
  | Some (VDict hs) => hs
  | _ => []
  end.

(** A mapping has each key once. *)
Definition unique_keys (kvs : list (pykey * pyval)) : Prop :=
  NoDup (map fst kvs).

(** An [etree.tostring] for examples: every tree serialises to the same
    text. *)
Definition example_tostring : pyval -> result pyval :=
  fun _ => Ok (VStr "<root/>").

(** A plain event as the constructor leaves it. *)
Definition plain_event : event :=
  {| ev_class := Event;
     ev_dict := {[ "_event_id" := VStr "0f3a"; "meta_id" := VStr "0f3a";
                   "service" := VStr "default"; "_data" := VStr "payload";
                   "_error" := VNone ]} |}.

(** An HTTP event that holds [ResourceNotFound] and whose status was then
    set back to 200 by hand. *)
Definition overridden_event : event :=
  {| ev_class := HttpEvent;
     ev_dict := {[ "headers" := VDict [(KStr "X-Trace", VStr "1")];
                   "_status" := VTuple [VInt 200; VStr "OK"];
                   "_data" := VNone;
                   "_error" := VExc ResourceNotFound "missing" ]} |}.

(** [remove_internal_xmlify] after [internal_xmlify]. *)
Definition envelope_round_trip (_json : pyval) : result pyval :=
  wrapped <- internal_xmlify _json ;; remove_internal_xmlify wrapped.

(** The value a path of keys leads to through nested mappings. *)
Fixpoint dict_path (v : pyval) (keys : list string) : option pyval :=
  match keys with
  | [] => Some v
  | key :: rest =>
      match v with
      | VDict kvs =>
          match dict_get kvs (KStr key) with
          | Some inner => dict_path inner rest
          | None => None
          end
      | _ => None
      end
  end.

(** What [lookup] hands back for the value it reached: the sentinel
    becomes [None] (lines 191-192). *)
Definition lookup_result (v : pyval) : pyval :=
  match v with
  | VNull => VNone
  | _ => v
  end.

(** A JSON event holding [{"customer": {"address": {"city": "Oslo"}}}]. *)
Definition customer_event : event :=
  {| ev_class := JSONEvent;
     ev_dict := {[ "_data" :=
                     VDict [(KStr "customer",
                             VDict [(KStr "address",
                                     VDict [(KStr "city", VStr "Oslo")])])] ]} |}.

(** A plain event holding the list [["a", "b", "c"]]. *)
Definition letters_event : event :=
  {| ev_class := Event;
     ev_dict := {[ "_data" := VList [VStr "a"; VStr "b"; VStr "c"] ]} |}.

(** An XML event holding the tree of [force_list_example]. *)
Definition xml_event : event :=
  {| ev_class := XMLEvent;
     ev_dict := {[ "_data" := VXml force_list_example; "_error" := VNone ]} |}.

(** ** The envelope rule in the words of the specification *)

(** JSON to XML: a top-level sequence, or a mapping with more than one key,
    is wrapped in the envelope; then, if the sole value under the single
    remaining key is a sequence, the wrap is applied a second time. *)
Definition wrap_by_rule (v : pyval) : pyval :=
  let once :=
    match v with
    | VList _ => envelope v
    | VDict (_ :: _ :: _) => envelope v
    | _ => v
    end in
  match once with
  | VDict [(_, VList _)] => envelope once
  | _ => once
  end.

(** XML to JSON: a decoded result that is a single-key mapping keyed by the
    envelope key is replaced by the value under the key. *)
Definition unwrap_by_rule (v : pyval) : pyval :=
  match v with
  | VDict [(k, inner)] => if decide (k = envelope_key) then inner else v
  | _ => v
  end.

(** [<jsonified_envelope><jsonified_envelope>a</jsonified_envelope>
    </jsonified_envelope>], as text and as a tree. *)
Definition enveloped_text : pyval :=
  VStr "<jsonified_envelope><jsonified_envelope>a</jsonified_envelope></jsonified_envelope>".

Definition enveloped_tree : xml :=
  Element "jsonified_envelope" [] None
    [Element "jsonified_envelope" [] (Some "a") [] None] None.

(** A fragment of the libraries that serialises the list [["a"]] once it is
    wrapped, and parses the text it gave. *)
Definition envelope_lib : pylib :=
  {| json_loads := fun _ => Raise ValueError;
     json_dumps := fun _ _ => Raise TypeError;
     etree_fromstring := fun text =>
       match text with
       | VStr s =>
           match enveloped_text with
           | VStr t => if String.eqb s t then Ok (VXml enveloped_tree) else Raise ValueError
           | _ => Raise ValueError
           end
       | _ => Raise TypeError
       end;
     xmltodict_unparse := fun wrapped =>
       match wrapped with
       | VDict [(KStr outer, VDict [(KStr inner, VList [VStr "a"])])] =>
           if String.eqb outer "jsonified_envelope"
              && String.eqb inner "jsonified_envelope"
           then Ok enveloped_text else Raise ValueError
       | _ => Raise ValueError
       end |}.

(** * Properties *)

Lemma internal_xmlify_empty_mapping :
  internal_xmlify (VDict []) = Raise StopIteration.
Proof. reflexivity. Qed.

(** ** The envelope *)

Lemma first_item_envelope v : first_item (envelope v) = Ok (envelope_key, v).
Proof. reflexivity. Qed.

(** ** Decoding an XML tree into the JSON family *)

(** C6, as the code has it: decoding the tree gives
    [{"root": {"item": [{"amount": "85"}]}}]. The root element stays as the
    single top-level key; under it the one [item] element is a one-element
    sequence and no [@force_list] entry is left. The [data] setter of a JSON
    event stores exactly this value. *)
Theorem force_list_decoding :
  xml_to_json force_list_example = Ok (VDict [(KStr "root", item_list)])
  /\ forall lib d,
       set_data lib (VXml force_list_example) {| ev_class := JSONEvent; ev_dict := d |}
       = ({| ev_class := JSONEvent;
             ev_dict := <["_data" := VDict [(KStr "root", item_list)]]> d |}, Ok tt).
Proof.
  split; [vm_compute; reflexivity |].
  intros lib d. reflexivity.
Qed.

(** C6 as stated fails: the decoded value is not the bare
    [{"item": [{"amount": "85"}]}]. *)
Lemma force_list_decoding_keeps_root :
  xml_to_json force_list_example <> Ok item_list.
Proof. vm_compute. discriminate. Qed.

(** ** The class hierarchy *)

(** [issubclass] is the reflexive-transitive closure of the bases: the
    fuel of [reaches] is enough for the hierarchy. *)
Lemma issubclass_rtc c d :
  issubclass c d = true <-> rtc (fun x y => y ∈ bases x) c d.
Proof.
  split.
  - unfold issubclass. generalize 5%nat as fuel. intros fuel. revert c.
    induction fuel as [|fuel IH]; intros c; simpl.
    + rewrite orb_false_r. intros H. apply bool_decide_eq_true_1 in H. subst.
      apply rtc_refl.
    + intros H. apply orb_true_iff in H as [H|H].
      * apply bool_decide_eq_true_1 in H. subst. apply rtc_refl.
      * apply existsb_exists in H as (b & Hb & Hr).
        apply rtc_l with b; [by apply list_elem_of_In | by apply IH].
  - intros H. revert d H. apply rtc_ind_r.
    + by destruct c.
    + intros b d _ Hb IH. apply list_elem_of_In in Hb.
      destruct c, b; try discriminate IH; destruct d; try reflexivity;
        simpl in Hb; intuition discriminate.
Qed.


(** The linearisation lists the superclasses: a class is in the MRO of
    [c] exactly when [c] is a subclass of it. *)
Lemma mro_issubclass c d : d ∈ mro c <-> issubclass c d = true.
Proof.
  rewrite <- (bool_decide_spec (d ∈ mro c)).
  destruct c, d; vm_compute; done.
Qed.

(** Case analysis on membership in an explicit list of classes. *)
Ltac class_cases H :=
  repeat (apply elem_of_cons in H as [-> | H]); [.. | by apply elem_of_nil in H].

(** Settles a decidable hypothesis on concrete classes by evaluation. *)
Ltac evaluate_in H :=
  apply (bool_decide_eq_true_2 _) in H; vm_compute in H; try discriminate H.

(** Proves a decidable statement on concrete classes by evaluation. *)
Ltac by_evaluation := apply (bool_decide_unpack _); vm_compute; exact I.

(** ** The envelope rule in the two conversions *)

(** The helper is the rule of the specification on a sequence and on a
    mapping that is not empty. *)
Lemma internal_xmlify_wrap_by_rule data :
  isinstance_list data = true
  \/ (exists kv kvs, data = VDict (kv :: kvs)) ->
  internal_xmlify data = Ok (wrap_by_rule data).
Proof.
  intros [Hlist | (kv & kvs & ->)].
  - destruct data; try discriminate. reflexivity.
  - destruct kvs as [|kv2 kvs]; [| reflexivity].
    destruct kv as [k v]. unfold internal_xmlify. simpl.
    destruct v; reflexivity.
Qed.

Lemma remove_internal_xmlify_unwrap_by_rule kvs :
  remove_internal_xmlify (VDict kvs) = Ok (unwrap_by_rule (VDict kvs)).
Proof.
  destruct kvs as [|[k v] [|kv2 kvs]]; try reflexivity.
  unfold remove_internal_xmlify. simpl.
  by destruct (decide (k = envelope_key)).
Qed.

(** C5: the JSON-to-XML conversion of an XML-capable event hands the
    serialiser exactly what the rule prescribes: a top-level sequence, or a
    mapping with more than one key, wrapped in the single-key envelope, and
    wrapped once more when the value under the single remaining key is a
    sequence. So a sequence ends wrapped twice, a mapping with several keys
    once, a single-key mapping once if its value is a sequence and not at
    all otherwise. The XML-to-JSON conversion of a JSON-capable event stores
    the decoded mapping with a single-key mapping keyed by the envelope key
    replaced by the value under it, and any other mapping as it is. Both
    hold for the two helpers themselves. *)
Theorem envelope_rule :
  (forall lib c data,
      c ∈ built_classes -> XML ∈ capabilities c ->
      isinstance_list data = true \/ (exists kv kvs, data = VDict (kv :: kvs)) ->
      XML_conversion_methods lib (class_of data)
      = Some (fun data =>
                wrapped <- internal_xmlify data ;;
                text <- xmltodict_unparse lib wrapped ;;
                etree_fromstring lib text)
      /\ internal_xmlify data = Ok (wrap_by_rule data)
      /\ convert_data lib c data
         = match (text <- xmltodict_unparse lib (wrap_by_rule data) ;;
                  etree_fromstring lib text) with
           | Ok tree => Ok tree
           | Raise _ => Raise (Raised InvalidEventDataModification)
           end)
  /\ (forall lib c e kvs,
        c ∈ built_classes -> JSON ∈ capabilities c ->
        xmltodict_parse should_force_list e = VDict kvs ->
        xml_to_json e = Ok (unwrap_by_rule (VDict kvs))
        /\ convert_data lib c (VXml e) = Ok (unwrap_by_rule (VDict kvs)))
  /\ (forall vs, wrap_by_rule (VList vs) = envelope (envelope (VList vs)))
  /\ (forall kv1 kv2 kvs,
        wrap_by_rule (VDict (kv1 :: kv2 :: kvs)) = envelope (VDict (kv1 :: kv2 :: kvs)))
  /\ (forall k v,
        wrap_by_rule (VDict [(k, v)])
        = if isinstance_list v then envelope (VDict [(k, v)]) else VDict [(k, v)])
  /\ (forall v, unwrap_by_rule (envelope v) = v)
  /\ (forall k v, k <> envelope_key -> unwrap_by_rule (VDict [(k, v)]) = VDict [(k, v)])
  /\ (forall kv1 kv2 kvs,
        unwrap_by_rule (VDict (kv1 :: kv2 :: kvs)) = VDict (kv1 :: kv2 :: kvs)).
Proof.
  split; [| split; [| split; [| split; [| split; [| split; [| split]]]]]].
  - intros lib c data Hc Hxml Hdata.
    pose proof (internal_xmlify_wrap_by_rule data Hdata) as Hwrap.
    assert (class_of data = CList \/ class_of data = CDict) as Hclass.
    { destruct Hdata as [Hlist | (kv & kvs & ->)]; [| by right].
      destruct data; try discriminate. by left. }
    split; [by destruct Hclass as [-> | ->] |].
    split; [exact Hwrap |].
    assert (conversion_methods lib c = Ok (XML_conversion_methods lib)) as Htable.
    { class_cases Hc; evaluate_in Hxml; reflexivity. }
    unfold convert_data. rewrite Htable. cbn [bind].
    destruct Hclass as [-> | ->]; cbn [XML_conversion_methods]; rewrite Hwrap;
      cbn [bind];
      by destruct (xmltodict_unparse lib (wrap_by_rule data)) as [text|];
        cbn [bind]; [destruct (etree_fromstring lib text) |].
  - intros lib c e kvs Hc Hjson Hparse.
    assert (xml_to_json e = Ok (unwrap_by_rule (VDict kvs))) as Hback.
    { unfold xml_to_json. rewrite Hparse.
      apply remove_internal_xmlify_unwrap_by_rule. }
    split; [exact Hback |].
    assert (conversion_methods lib c = Ok (JSON_conversion_methods lib)) as Htable.
    { class_cases Hc; evaluate_in Hjson; reflexivity. }
    unfold convert_data. rewrite Htable. cbn [bind class_of JSON_conversion_methods].
    by rewrite Hback.
  - intros vs. reflexivity.
  - intros kv1 kv2 kvs. reflexivity.
  - intros k v. by destruct v.
  - intros v. reflexivity.
  - intros k v Hk. simpl. by destruct (decide (k = envelope_key)).
  - intros [k1 v1] kv2 kvs. reflexivity.
Qed.

(** The rule at work on the list [["a"]]: the XML setter serialises the
    list wrapped twice, and the JSON setter, given the tree that came out,
    unwraps once. A mapping whose only value is text is not wrapped. *)
Lemma envelope_rule_witness :
  convert_data envelope_lib XMLEvent (VList [VStr "a"]) = Ok (VXml enveloped_tree)
  /\ convert_data envelope_lib JSONEvent (VXml enveloped_tree)
     = Ok (VDict [(envelope_key, VStr "a")])
  /\ internal_xmlify (VDict [(KStr "a", VStr "x")]) = Ok (VDict [(KStr "a", VStr "x")]).
Proof.
  destruct envelope_rule as (Hto & Hfrom & _).
  split; [| split].
  - destruct (Hto envelope_lib XMLEvent (VList [VStr "a"])) as (_ & _ & ->);
      [by_evaluation | by_evaluation | by left | reflexivity].
  - destruct (Hfrom envelope_lib JSONEvent enveloped_tree
                [(envelope_key, VDict [(envelope_key, VStr "a")])]) as [_ ->];
      [by_evaluation | by_evaluation | reflexivity | reflexivity].
  - destruct (Hto envelope_lib XMLEvent (VDict [(KStr "a", VStr "x")]))
      as (_ & -> & _);
      [by_evaluation | by_evaluation | right; by eexists _, _ | reflexivity].
Defined.

(** On the built classes, inclusion of capability sets is the subclass
    relation read backwards. *)
Lemma capabilities_subseteq a b :
  a ∈ built_classes -> b ∈ built_classes ->
  capabilities a ⊆ capabilities b <-> issubclass b a = true.
Proof.
  intros Ha Hb. rewrite <- (bool_decide_spec (capabilities a ⊆ capabilities b)).
  class_cases Ha; class_cases Hb; vm_compute; done.
Qed.

(** ** The class convert selects *)

Lemma convert_class_widening src tgt :
  src ∈ built_classes -> tgt ∈ built_classes ->
  capabilities src ⊆ capabilities tgt ->
  convert_class src tgt = Ok tgt.
Proof.
  intros Hs Ht Hsub. apply capabilities_subseteq in Hsub; [| done | done].
  unfold convert_class. by rewrite Hsub.
Qed.

Lemma convert_class_narrowing src tgt :
  src ∈ built_classes -> tgt ∈ built_classes ->
  capabilities tgt ⊂ capabilities src ->
  convert_class src tgt = Raise (NameError "InvalidEventConversion").
Proof.
  intros Hs Ht [Hsub Hnot].
  apply capabilities_subseteq in Hsub; [| done | done].
  assert (issubclass tgt src = false) as Hno.
  { destruct (issubclass tgt src) eqn:E; [| done].
    apply capabilities_subseteq in E; done. }
  unfold convert_class. rewrite Hno, Hsub. reflexivity.
Qed.

Lemma convert_class_sideways src tgt c :
  src ∈ built_classes -> tgt ∈ built_classes -> c ∈ built_classes ->
  capabilities src ⊈ capabilities tgt ->
  capabilities tgt ⊈ capabilities src ->
  capabilities c = capabilities tgt ∪ (capabilities src ∖ data_formats) ->
  convert_class src tgt = Ok c.
Proof.
  intros Hs Ht Hc H1 H2 H3.
  class_cases Hs; class_cases Ht;
    evaluate_in H1; evaluate_in H2;
    class_cases Hc; evaluate_in H3; reflexivity.
Qed.

(** ** The payload setter *)

(** On a built class the setter either stores a value or raises
    [InvalidEventDataModification]. *)
Lemma convert_data_outcome lib c d :
  c ∈ built_classes ->
  (exists v, convert_data lib c d = Ok v)
  \/ convert_data lib c d = Raise (Raised InvalidEventDataModification).
Proof.
  intros Hc. unfold convert_data.
  assert (exists table, conversion_methods lib c = Ok table) as [table ->].
  { class_cases Hc; eexists; reflexivity. }
  simpl. destruct (table (class_of d)) as [converter|]; [| by right].
  destruct (converter d) as [v|e]; [left; by exists v | by right].
Qed.

(** A class without a payload format stores any value as it is. *)
Lemma convert_data_plain lib c d :
  c ∈ built_classes ->
  capabilities c ## data_formats ->
  convert_data lib c d = Ok d.
Proof.
  intros Hc Hplain. class_cases Hc; evaluate_in Hplain; reflexivity.
Qed.

(** [convert], once the class is selected: the new instance has the
    attributes of the old one, and its [_data] is what the setter of the new
    class makes of the old payload. *)
Lemma convert_selected lib self tgt c d :
  convert_class (ev_class self) tgt = Ok c ->
  ev_dict self !! "_data" = Some d ->
  convert lib self tgt
  = (v <- convert_data lib c d ;;
     Ok {| ev_class := c; ev_dict := <["_data" := v]> (ev_dict self) |}).
Proof.
  intros Hc Hd. unfold convert. rewrite Hc. simpl.
  unfold construct, and_then, update_dict, lift, get_data, get_slot, set_data.
  simpl. rewrite Hd. simpl. unfold and_then, lift. simpl.
  destruct (convert_data lib c d); simpl; [| done].
  unfold set_slot. simpl. by rewrite (right_id ∅ (∪)).
Qed.


Lemma convert_rebuilt lib self tgt c d :
  c ∈ built_classes ->
  convert_class (ev_class self) tgt = Ok c ->
  ev_dict self !! "_data" = Some d ->
  rebuilt_as lib self c d (convert lib self tgt).
Proof.
  intros Hc Hsel Hd. rewrite (convert_selected lib self tgt c d Hsel Hd).
  destruct (convert_data_outcome lib c d Hc) as [[v Hv] | Hraise].
  - left. exists v. by rewrite Hv.
  - right. by rewrite Hraise.
Qed.

(** ** Narrowing *)

(** C2 (not what the code does): a conversion to a type whose capability
    set is a strict subset of the event's is meant to fail with
    [InvalidEventConversion], but the module never binds that name, so the
    [raise] statement itself fails and the caller sees a [NameError]. *)
Theorem convert_narrowing_raises_NameError lib self tgt :
  ev_class self ∈ built_classes -> tgt ∈ built_classes ->
  capabilities tgt ⊂ capabilities (ev_class self) ->
  convert lib self tgt = Raise (NameError "InvalidEventConversion").
Proof.
  intros Hs Ht Hsub. unfold convert.
  by rewrite (convert_class_narrowing _ _ Hs Ht Hsub).
Qed.

(** A JSON event with the HTTP fields converted to a plain JSON event. *)
Lemma convert_narrowing_witness :
  convert example_lib json_http_event JSONEvent
  = Raise (NameError "InvalidEventConversion").
Proof.
  apply convert_narrowing_raises_NameError.
  - by_evaluation.
  - by_evaluation.
  - split; by_evaluation.
Defined.

(** ** Sideways conversion *)

(** Among the six payload and HTTP event types, an incomparable pair always
    has its class: the target's capabilities plus HTTP when the source has
    it. *)
Lemma sideways_class_exists src tgt :
  src ∈ format_classes -> tgt ∈ format_classes ->
  capabilities src ⊈ capabilities tgt ->
  capabilities tgt ⊈ capabilities src ->
  exists c,
    c ∈ format_classes
    /\ capabilities c = capabilities tgt ∪ (capabilities src ∖ data_formats).
Proof.
  intros Hs Ht H1 H2.
  class_cases Hs; class_cases Ht; evaluate_in H1; evaluate_in H2;
    first [ exists JSONEvent; split; by_evaluation
          | exists XMLEvent; split; by_evaluation
          | exists HttpEvent; split; by_evaluation
          | exists JSONHttpEvent; split; by_evaluation
          | exists XMLHttpEvent; split; by_evaluation ].
Qed.

Lemma format_classes_built c : c ∈ format_classes -> c ∈ built_classes.
Proof. intros Hc. class_cases Hc; by_evaluation. Qed.

(** C3, as the code has it: between two of the six payload and HTTP event
    types with incomparable capability sets, [convert] rebuilds the event
    as the type whose capability set is the target's set together with the
    capabilities of the source other than its payload format, that is, plus
    HTTP when the source has it. The payload format of the source is
    dropped, not merged; the payload is stored again by the setter of the
    selected class, which may reject it. *)
Theorem convert_sideways lib self tgt d :
  ev_class self ∈ format_classes -> tgt ∈ format_classes ->
  capabilities (ev_class self) ⊈ capabilities tgt ->
  capabilities tgt ⊈ capabilities (ev_class self) ->
  ev_dict self !! "_data" = Some d ->
  exists c,
    c ∈ format_classes
    /\ capabilities c = capabilities tgt ∪ (capabilities (ev_class self) ∖ data_formats)
    /\ rebuilt_as lib self c d (convert lib self tgt).
Proof.
  intros Hs Ht H1 H2 Hd.
  destruct (sideways_class_exists _ _ Hs Ht H1 H2) as (c & Hc & Hcaps).
  exists c. split; [done |]. split; [done |].
  apply convert_rebuilt; [by apply format_classes_built | | done].
  apply convert_class_sideways; auto using format_classes_built.
Qed.

(** An HTTP event converted to [JSONEvent]. *)
Lemma convert_sideways_witness :
  exists c,
    c ∈ format_classes
    /\ capabilities c
       = capabilities JSONEvent ∪ (capabilities HttpEvent ∖ data_formats)
    /\ rebuilt_as example_lib
         {| ev_class := HttpEvent; ev_dict := {[ "_data" := VNone ]} |} c VNone
         (convert example_lib
            {| ev_class := HttpEvent; ev_dict := {[ "_data" := VNone ]} |} JSONEvent).
Proof.
  apply (convert_sideways example_lib
           {| ev_class := HttpEvent; ev_dict := {[ "_data" := VNone ]} |}
           JSONEvent VNone).
  - by_evaluation.
  - by_evaluation.
  - by_evaluation.
  - by_evaluation.
  - reflexivity.
Defined.

(** The two directions between JSON and HTTP, and XML to JSON. *)
Example convert_http_to_json :
  convert example_lib
    {| ev_class := HttpEvent; ev_dict := {[ "_data" := VNone ]} |} JSONEvent
  = Ok {| ev_class := JSONHttpEvent; ev_dict := {[ "_data" := VDict [] ]} |}.
Proof. vm_compute. reflexivity. Qed.

Example convert_json_to_http :
  convert example_lib json_event HttpEvent
  = Ok {| ev_class := HttpEvent; ev_dict := {[ "_data" := VDict [] ]} |}.
Proof. vm_compute. reflexivity. Qed.

Example convert_xml_to_json :
  convert example_lib
    {| ev_class := XMLEvent; ev_dict := {[ "_data" := VXml force_list_example ]} |}
    JSONEvent
  = Ok {| ev_class := JSONEvent;
          ev_dict := {[ "_data" := VDict [(KStr "root", item_list)] ]} |}.
Proof. vm_compute. reflexivity. Qed.

(** C3 as stated fails: [JSONEvent] and [HttpEvent] are incomparable, yet a
    JSON event converted to [HttpEvent] is a plain [HttpEvent], whose
    capability set is not the union of the two. *)
Lemma convert_json_to_http_drops_json :
  capabilities JSONEvent ⊈ capabilities HttpEvent
  /\ capabilities HttpEvent ⊈ capabilities JSONEvent
  /\ (forall lib,
        convert lib json_event HttpEvent
        = Ok {| ev_class := HttpEvent; ev_dict := ev_dict json_event |})
  /\ capabilities HttpEvent <> capabilities JSONEvent ∪ capabilities HttpEvent.
Proof.
  split; [by_evaluation |].
  split; [by_evaluation |].
  split; [| by_evaluation].
  intros lib. vm_compute. reflexivity.
Qed.

(** ** Widening *)

(** C4, as the code has it: a conversion to a built class whose capability
    set includes the event's rebuilds the event as that class. When the
    payload setter of the target accepts the payload, the result has every
    attribute of the source unchanged and the payload stored again in the
    target's form; when it rejects the payload, [convert] raises
    [InvalidEventDataModification]. *)
Theorem convert_widening lib self tgt d :
  ev_class self ∈ built_classes -> tgt ∈ built_classes ->
  capabilities (ev_class self) ⊆ capabilities tgt ->
  ev_dict self !! "_data" = Some d ->
  rebuilt_as lib self tgt d (convert lib self tgt).
Proof.
  intros Hs Ht Hsub Hd.
  apply convert_rebuilt; [done | | done].
  by apply convert_class_widening.
Qed.

(** A JSON event holding [{}] converted to [JSONHttpEvent]. *)
Lemma convert_widening_witness :
  rebuilt_as example_lib json_event JSONHttpEvent (VDict [])
    (convert example_lib json_event JSONHttpEvent).
Proof.
  apply convert_widening.
  - by_evaluation.
  - by_evaluation.
  - by_evaluation.
  - reflexivity.
Defined.

Example convert_json_to_json_http :
  convert example_lib json_event JSONHttpEvent
  = Ok {| ev_class := JSONHttpEvent; ev_dict := {[ "_data" := VDict [] ]} |}.
Proof. vm_compute. reflexivity. Qed.

(** C4 as stated fails: a plain event holding an integer cannot be widened
    to [JSONEvent], whatever the libraries do: the JSON table has no entry
    for integers. *)
Lemma convert_widening_rejects_payload :
  capabilities (ev_class int_event) ⊆ capabilities JSONEvent
  /\ (forall lib,
        convert lib int_event JSONEvent = Raise (Raised InvalidEventDataModification)).
Proof.
  split; [by_evaluation |].
  intros lib. reflexivity.
Qed.


(** ** Which attributes a method leaves alone *)

Lemma and_then_Ok {A B : Type} (m : method A) (k : A -> method B) self after b :
  and_then m k self = (after, Ok b) <->
  exists mid a, m self = (mid, Ok a) /\ k a mid = (after, Ok b).
Proof.
  unfold and_then. split.
  - destruct (m self) as [mid [a|e]]; [eauto | discriminate].
  - intros (mid & a & -> & Hk). exact Hk.
Qed.

Lemma preserves_ret {A : Type} name (a : A) : preserves name (ret a).
Proof. intros self after r [= <- _]. reflexivity. Qed.

Lemma preserves_lift {A : Type} name (x : result A) : preserves name (lift x).
Proof. intros self after r [= <- _]. reflexivity. Qed.

Lemma preserves_getattr name other : preserves name (getattr other).
Proof. intros self after r [= <- _]. reflexivity. Qed.

Lemma preserves_setattr name other v :
  name <> other -> preserves name (setattr other v).
Proof.
  intros Hne self after r [= <- _]. simpl. by apply lookup_insert_ne.
Qed.

Lemma preserves_and_then {A B : Type} name (m : method A) (k : A -> method B) :
  preserves name m -> (forall a, preserves name (k a)) ->
  preserves name (and_then m k).
Proof.
  intros Hm Hk self after r. unfold and_then.
  destruct (m self) as [mid [a|e]] eqn:E.
  - intros H. rewrite (Hk a _ _ _ H). exact (Hm _ _ _ E).
  - intros [= <- _]. exact (Hm _ _ _ E).
Qed.

Lemma preserves_update_dict name kwargs :
  kwargs !! name = None -> preserves name (update_dict kwargs).
Proof.
  intros Hk self after r [= <- _]. simpl.
  by rewrite lookup_union_r.
Qed.

Lemma preserves_set_status name status :
  name <> "_status" -> preserves name (set_status status).
Proof.
  intros Hne. unfold set_status.
  destruct status; try apply preserves_ret.
  - destruct (re_split_1 s) as [|code [|reason [|]]]; try apply preserves_ret.
    apply preserves_and_then; [apply preserves_lift |].
    intros n. by apply preserves_setattr.
  - by apply preserves_setattr.
Qed.

Lemma preserves_set_data lib name data :
  name <> "_data" -> preserves name (set_data lib data).
Proof.
  intros Hne self after r. unfold set_data.
  apply preserves_and_then; [apply preserves_lift |].
  intros v. by apply preserves_setattr.
Qed.

Lemma preserves_set_event_id name event_id :
  name <> "_event_id" -> preserves name (set_event_id event_id).
Proof.
  intros Hne self after r. unfold set_event_id.
  destruct (truthy _).
  - intros [= <- _]. reflexivity.
  - by apply preserves_setattr.
Qed.

(** Clearing the error writes the [_error] slot and nothing else, for the
    plain and for the HTTP version of [_set_error]. *)
Lemma set_error_None self :
  ev_class self ∈ built_classes ->
  set_error VNone self = (set_slot self "_error" VNone, Ok tt).
Proof.
  destruct self as [c d]. simpl. intros Hc.
  class_cases Hc; reflexivity.
Qed.

Lemma preserves_set_error_None name :
  name <> "_error" -> preserves name (set_error VNone).
Proof.
  intros Hne self after r. unfold set_error.
  destruct (resolve (ev_class self) "_set_error") as [[[] ?]|];
    try (intros [= <- _]; simpl; by rewrite ?lookup_insert_ne).
Qed.

(** Splits a sequence of method calls into the calls it is made of. *)
Ltac frame :=
  first [ apply preserves_getattr
        | apply preserves_ret
        | apply preserves_lift
        | apply preserves_update_dict
        | apply preserves_set_event_id
        | apply preserves_set_data
        | apply preserves_set_error_None
        | apply preserves_set_status
        | apply preserves_setattr
        | apply preserves_and_then; [frame | intros ?; frame] ].

Lemma preserves_Event__init__ lib uuid_hex now name meta_id service data kwargs :
  name ∉ ["_event_id"; "meta_id"; "service"; "_data"; "_error"; "created"] ->
  kwargs !! name = None ->
  preserves name (Event__init__ lib uuid_hex now meta_id service data kwargs).
Proof.
  intros Hname Hk. unfold Event__init__.
  frame; first [exact Hk | intros ->; apply Hname; by_evaluation].
Qed.


Lemma and_then_step {A B : Type} (m : method A) (k : A -> method B) self mid a :
  m self = (mid, Ok a) -> and_then m k self = k a mid.
Proof. unfold and_then. by intros ->. Qed.

(** [Event.__init__] returns on a fresh instance of a class without a
    payload format: the identifier is not set yet and the setter stores any
    payload. *)
Lemma Event__init___returns lib uuid_hex now meta_id service data kwargs self :
  ev_class self ∈ built_classes ->
  capabilities (ev_class self) ## data_formats ->
  ev_dict self !! "_event_id" = None ->
  exists after,
    Event__init__ lib uuid_hex now meta_id service data kwargs self = (after, Ok tt).
Proof.
  intros Hc Hplain Hid. unfold Event__init__.
  erewrite and_then_step; last first.
  { unfold set_event_id. rewrite Hid. reflexivity. }
  erewrite and_then_step; last first.
  { unfold getattr, get_slot. simpl. by rewrite lookup_insert_eq. }
  erewrite and_then_step; [| reflexivity].
  erewrite and_then_step; [| reflexivity].
  erewrite and_then_step; last first.
  { unfold set_data. simpl.
    erewrite and_then_step; [reflexivity |].
    unfold lift. by rewrite (convert_data_plain lib _ data Hc Hplain). }
  erewrite and_then_step; last first.
  { by apply set_error_None. }
  erewrite and_then_step; [| reflexivity].
  eexists. reflexivity.
Qed.

(** An initialiser that returned to [construct] returned normally. *)
Lemma construct_Ok cls init ev :
  construct cls init = Ok ev ->
  init {| ev_class := cls; ev_dict := ∅ |} = (ev, Ok tt).
Proof.
  unfold construct.
  destruct (init _) as [self [[]|e]]; [by intros [= ->] | discriminate].
Qed.

(** [HttpEvent.__init__] ends with [Event.__init__] run on an instance
    whose [_pagination] is the argument and whose [_status] is what the
    [status] setter left. *)
Lemma HttpEvent__init___Ok lib uuid_hex now headers status environment pagination
    meta_id service data kwargs self after :
  HttpEvent__init__ lib uuid_hex now headers status environment pagination
    meta_id service data kwargs self = (after, Ok tt) ->
  exists mid before,
    Event__init__ lib uuid_hex now meta_id service data kwargs
      (set_slot (set_slot mid "environment" environment) "_pagination" pagination)
    = (after, Ok tt)
    /\ set_status status before = (mid, Ok tt)
    /\ ev_dict before !! "_status" = ev_dict self !! "_status".
Proof.
  unfold HttpEvent__init__. intros H.
  apply and_then_Ok in H as (s1 & [] & [= <-] & H).
  apply and_then_Ok in H as (s2 & request_method & H2 & H).
  apply and_then_Ok in H as (s3 & [] & [= <-] & H).
  apply and_then_Ok in H as (mid & [] & Hstatus & H).
  apply and_then_Ok in H as (s5 & [] & [= <-] & H).
  apply and_then_Ok in H as (s6 & [] & [= <-] & H).
  injection H2 as <- _.
  eexists mid, _. split; [exact H |]. split; [exact Hstatus |].
  simpl. by rewrite !lookup_insert_ne.
Qed.

(** ** Clearing the error of an HTTP event *)

(** C1, as the code has it: on an HTTP-capable event, setting the error to
    [None] goes through [HttpEvent._set_error], stores [None] in the error
    slot and leaves the headers as they were: the headers merged in when an
    error was set are retained. *)
Theorem clearing_error_keeps_headers self :
  ev_class self ∈ built_classes -> HTTP ∈ capabilities (ev_class self) ->
  exists after,
    set_error VNone self = (after, Ok tt)
    /\ set_error VNone self = HttpEvent__set_error VNone self
    /\ get_error after = Ok VNone
    /\ ev_dict after !! "headers" = ev_dict self !! "headers".
Proof.
  intros Hc Hhttp. exists (set_slot self "_error" VNone).
  split; [by apply set_error_None |].
  split.
  - destruct self as [c d]. simpl in *.
    class_cases Hc; evaluate_in Hhttp; reflexivity.
  - split; [unfold get_error, get_slot; simpl; by rewrite lookup_insert_eq |].
    simpl. by rewrite lookup_insert_ne.
Qed.

(** Clearing the error of the event that holds an [UnauthorizedEvent]. *)
Lemma clearing_error_witness :
  exists after,
    set_error VNone unauthorized_event = (after, Ok tt)
    /\ set_error VNone unauthorized_event = HttpEvent__set_error VNone unauthorized_event
    /\ get_error after = Ok VNone
    /\ ev_dict after !! "headers" = ev_dict unauthorized_event !! "headers".
Proof.
  apply clearing_error_keeps_headers; by_evaluation.
Defined.

(** The table has an entry for clearing, which [_set_error] never reads:
    it looks the class up only for an instance of [Exception]. *)
Lemma http_code_map_clear_entry :
  http_code_map CNoneType = [status_entry 200 "OK"].
Proof. reflexivity. Qed.

(** C1 as stated fails: after [UnauthorizedEvent] was set on a fresh HTTP
    event and then cleared, the status is still 401 and the
    [WWW-Authenticate] header is still there. *)
Lemma clearing_error_keeps_status_and_headers :
  set_error (VExc UnauthorizedEvent "denied") fresh_http_event
  = (unauthorized_event, Ok tt)
  /\ exists after,
       set_error VNone unauthorized_event = (after, Ok tt)
       /\ get_status after = Ok (VTuple [VInt 401; VStr "Unauthorized"])
       /\ get_slot after "headers"
          = Ok (VDict [(KStr "WWW-Authenticate", VStr www_authenticate)]).
Proof.
  split; [vm_compute; reflexivity |].
  eexists. split; [vm_compute; reflexivity |].
  split; vm_compute; reflexivity.
Qed.

(** ** Pagination *)

(** C8, as the code has it: the [pagination] setter stores a mapping that
    has both [limit] and [offset], which is then read back unchanged, and
    raises [ValueError] on a mapping that lacks one of them, leaving the
    event as it was. The constructor does not go through the setter: it
    stores its [pagination] argument unchecked. *)
Theorem pagination_setter_validates self kvs :
  (is_Some (dict_get kvs (KStr "limit")) /\ is_Some (dict_get kvs (KStr "offset")) ->
   exists after,
     set_pagination (VDict kvs) self = (after, Ok tt)
     /\ get_pagination after = Ok (VDict kvs))
  /\ (~ (is_Some (dict_get kvs (KStr "limit")) /\ is_Some (dict_get kvs (KStr "offset"))) ->
      set_pagination (VDict kvs) self = (self, Raise ValueError))
  /\ (forall lib uuid_hex now cls headers status environment pagination
             meta_id service data kwargs ev,
        kwargs !! "_pagination" = None ->
        new_HttpEvent lib uuid_hex now cls headers status environment pagination
          meta_id service data kwargs = Ok ev ->
        get_pagination ev = Ok pagination).
Proof.
  split; [| split].
  - intros [Hl Ho]. exists (set_slot self "_pagination" (VDict kvs)).
    unfold set_pagination, and_then, lift, py_contains.
    rewrite (bool_decide_eq_true_2 _ Hl), (bool_decide_eq_true_2 _ Ho).
    split; [reflexivity |].
    unfold get_pagination, get_slot. simpl. by rewrite lookup_insert_eq.
  - intros Hnot. unfold set_pagination, and_then, lift, py_contains.
    destruct (bool_decide (is_Some (dict_get kvs (KStr "limit")))) eqn:El;
      [| reflexivity].
    destruct (bool_decide (is_Some (dict_get kvs (KStr "offset")))) eqn:Eo;
      [| reflexivity].
    apply bool_decide_eq_true_1 in El, Eo. by destruct Hnot.
  - intros lib uuid_hex now cls headers status environment pagination
      meta_id service data kwargs ev Hk Hnew.
    apply construct_Ok, HttpEvent__init___Ok in Hnew as (mid & before & Hinit & _ & _).
    assert ("_pagination" ∉ ["_event_id"; "meta_id"; "service"; "_data"; "_error"; "created"])
      as Hname by by_evaluation.
    unfold get_pagination, get_slot.
    rewrite (preserves_Event__init__ _ _ _ _ _ _ _ _ Hname Hk _ _ _ Hinit).
    simpl. by rewrite lookup_insert_eq.
Qed.

(** The setter on the fresh HTTP event: a mapping with both keys, and
    [limit_only]. *)
Lemma pagination_setter_witness :
  (exists after,
      set_pagination (VDict [(KStr "limit", VInt 10); (KStr "offset", VInt 0)])
        fresh_http_event = (after, Ok tt)
      /\ get_pagination after
         = Ok (VDict [(KStr "limit", VInt 10); (KStr "offset", VInt 0)]))
  /\ set_pagination limit_only fresh_http_event = (fresh_http_event, Raise ValueError).
Proof.
  split.
  - apply (pagination_setter_validates fresh_http_event
             [(KStr "limit", VInt 10); (KStr "offset", VInt 0)]).
    split; by_evaluation.
  - apply (pagination_setter_validates fresh_http_event [(KStr "limit", VInt 10)]).
    by_evaluation.
Defined.

(** C8 as stated fails at construction: an HTTP event built with a
    pagination that lacks [offset] is built, and holds it. *)
Lemma constructor_accepts_limit_only :
  py_contains limit_only "offset" = Ok false
  /\ (forall lib uuid_hex now,
        exists ev,
          new_HttpEvent lib uuid_hex now HttpEvent
            VNone (VTuple [VInt 200; VStr "OK"]) (VDict []) limit_only
            VNone VNone VNone ∅ = Ok ev
          /\ get_pagination ev = Ok limit_only).
Proof.
  split; [reflexivity |].
  intros lib uuid_hex now. eexists. split; reflexivity.
Qed.


(** ** The status setter *)

Lemma split_first_None s :
  has_status_separator s = false -> split_first s = None.
Proof.
  unfold has_status_separator. induction s as [|c s IH]; simpl; [done |].
  intros H. apply orb_false_iff in H as [Hc Hs].
  rewrite Hc. by rewrite (IH Hs).
Qed.

Lemma set_status_ignored status self :
  (forall vs, status <> VTuple vs) ->
  (forall s, status = VStr s -> has_status_separator s = false) ->
  set_status status self = (self, Ok tt).
Proof.
  intros Htuple Hstr. destruct status; try reflexivity.
  - unfold set_status, re_split_1.
    by rewrite (split_first_None s (Hstr s eq_refl)).
  - by destruct (Htuple vs).
Qed.

(** C10, as the code has it: assigning to [status] a value that is neither
    a tuple nor text holding a space or a hyphen changes nothing and raises
    nothing. An HTTP event constructed with such a status (and without an
    extra keyword argument named [_status]) has no status slot, so reading
    its status raises [AttributeError]; and the construction of a plain
    [HttpEvent] with such a status and a mapping as environment does
    return. *)
Theorem status_setter_ignores status :
  (forall vs, status <> VTuple vs) ->
  (forall s, status = VStr s -> has_status_separator s = false) ->
  (forall self, set_status status self = (self, Ok tt))
  /\ (forall lib uuid_hex now cls headers environment pagination
             meta_id service data kwargs ev,
        kwargs !! "_status" = None ->
        new_HttpEvent lib uuid_hex now cls headers status environment pagination
          meta_id service data kwargs = Ok ev ->
        get_status ev = Raise AttributeError)
  /\ (forall lib uuid_hex now headers env pagination meta_id service data kwargs,
        exists ev,
          new_HttpEvent lib uuid_hex now HttpEvent headers status (VDict env) pagination
            meta_id service data kwargs = Ok ev).
Proof.
  intros Htuple Hstr.
  split; [| split].
  - intros self. by apply set_status_ignored.
  - intros lib uuid_hex now cls headers environment pagination
      meta_id service data kwargs ev Hk Hnew.
    apply construct_Ok, HttpEvent__init___Ok in Hnew
      as (mid & before & Hinit & Hstatus & Hbefore).
    rewrite (set_status_ignored status before Htuple Hstr) in Hstatus.
    injection Hstatus as <-.
    assert ("_status" ∉ ["_event_id"; "meta_id"; "service"; "_data"; "_error"; "created"])
      as Hname by by_evaluation.
    unfold get_status, get_slot.
    rewrite (preserves_Event__init__ _ _ _ _ _ _ _ _ Hname Hk _ _ _ Hinit).
    simpl. rewrite !lookup_insert_ne by done. by rewrite Hbefore.
  - intros lib uuid_hex now headers env pagination meta_id service data kwargs.
    unfold new_HttpEvent, construct, HttpEvent__init__.
    erewrite and_then_step; [| reflexivity].
    erewrite and_then_step; [| reflexivity].
    erewrite and_then_step; [| reflexivity].
    erewrite and_then_step; [| by apply set_status_ignored].
    erewrite and_then_step; [| reflexivity].
    erewrite and_then_step; [| reflexivity].
    edestruct (Event__init___returns lib uuid_hex now meta_id service data kwargs)
      as [after ->]; [| | | by exists after].
    + by_evaluation.
    + by_evaluation.
    + reflexivity.
Qed.

(** The bare text [500]: the setter on the fresh HTTP event, and the
    construction of an HTTP event with it. *)
Lemma status_setter_witness :
  (forall self, set_status (VStr "500") self = (self, Ok tt))
  /\ (forall lib uuid_hex now cls headers environment pagination
             meta_id service data kwargs ev,
        kwargs !! "_status" = None ->
        new_HttpEvent lib uuid_hex now cls headers (VStr "500") environment pagination
          meta_id service data kwargs = Ok ev ->
        get_status ev = Raise AttributeError)
  /\ (forall lib uuid_hex now headers env pagination meta_id service data kwargs,
        exists ev,
          new_HttpEvent lib uuid_hex now HttpEvent headers (VStr "500") (VDict env)
            pagination meta_id service data kwargs = Ok ev).
Proof.
  apply (status_setter_ignores (VStr "500")).
  - discriminate.
  - intros s [= <-]. reflexivity.
Defined.

(** C10 as stated fails for a tuple that is not a pair: the one-element
    tuple [(500,)] is stored as the status. *)
Lemma status_setter_stores_any_tuple :
  set_status (VTuple [VInt 500]) fresh_http_event
  = (set_slot fresh_http_event "_status" (VTuple [VInt 500]), Ok tt)
  /\ get_status (set_slot fresh_http_event "_status" (VTuple [VInt 500]))
     = Ok (VTuple [VInt 500])
  /\ get_status fresh_http_event = Ok (VTuple [VInt 200; VStr "OK"]).
Proof.
  split; [reflexivity |]. split; vm_compute; reflexivity.
Qed.


(** ** Lookup *)

Section LookupProperties.
Variable builtin_attr : pyval -> string -> option pyval.
Variable object_attr : event -> string -> option pyval.
Variable element_name_error : string -> option exn.
Variable element_index_error : Z -> option exn.

Lemma seq_index_raises {A : Type} (l : list A) i e :
  seq_index l i = Raise e -> e = IndexError.
Proof.
  unfold seq_index. destruct (_ || _)%bool; [by intros [= <-] |].
  destruct (nth_error _ _); [discriminate | by intros [= <-]].
Qed.

Lemma py_int_raises key e : py_int key = Raise e -> e = ValueError.
Proof.
  destruct key as [s|n]; [| discriminate]. simpl. unfold py_int_str.
  destruct (match py_strip s with EmptyString => _ | String _ _ => _ end)
    as [negative body].
  destruct body; [by intros [= <-] |].
  destruct (parse_digits _ _); [discriminate | by intros [= <-]].
Qed.

Lemma py_getitem_raises obj i e :
  (forall x, obj = OVal (VXml x) -> element_index_error i = None) ->
  py_getitem element_index_error obj i = Raise e ->
  e = TypeError \/ e = IndexError \/ e = KeyError.
Proof.
  intros Hindex.
  destruct obj as [ev | v]; [intros [= <-]; by left |].
  destruct v as [| | | s | vs | vs | kvs | [tag attrib text children tail] | c message | |];
    simpl; try (intros [= <-]; by left).
  - destruct (seq_index _ i) eqn:E; [discriminate |].
    intros [= <-]. right. left. by apply seq_index_raises in E.
  - destruct (seq_index _ i) eqn:E; [discriminate |].
    intros [= <-]. right. left. by apply seq_index_raises in E.
  - destruct (seq_index _ i) eqn:E; [discriminate |].
    intros [= <-]. right. left. by apply seq_index_raises in E.
  - destruct (dict_get kvs (KInt i)); [discriminate | intros [= <-]; by right; right].
  - rewrite (Hindex _ eq_refl). destruct (seq_index _ i) eqn:E; [discriminate |].
    intros [= <-]. right. left. by apply seq_index_raises in E.
  - destruct (seq_index _ i) eqn:E; [discriminate |].
    intros [= <-]. right. left. by apply seq_index_raises in E.
Qed.

Lemma py_getattr_raises obj key e :
  py_getattr builtin_attr object_attr obj key = Raise e -> e = TypeError.
Proof.
  destruct key as [name|n]; [| by intros [= <-]]. simpl.
  destruct obj as [ev | []]; try discriminate.
  by destruct (String.eqb name "get").
Qed.

(** Every exception the indexing can raise, once lxml has taken the
    index, is one [_list_get] catches. *)
Lemma _list_get_eq obj key fallback :
  (forall x i, obj = OVal (VXml x) -> py_int key = Ok i -> element_index_error i = None) ->
  _list_get element_index_error obj key fallback
  = Ok (default fallback (index_access element_index_error obj key)).
Proof.
  intros Hindex. unfold _list_get, index_access.
  destruct (py_int key) as [i|e] eqn:Ei; simpl.
  - destruct (py_getitem _ obj i) as [v|e] eqn:Eg; [done |].
    by destruct (py_getitem_raises _ _ _ (fun x Hx => Hindex x i Hx eq_refl) Eg)
      as [-> | [-> | ->]].
  - by rewrite (py_int_raises _ _ Ei).
Qed.

Lemma _getattr_eq obj key fallback :
  _getattr builtin_attr object_attr obj key fallback
  = Ok (default fallback (attribute_access builtin_attr object_attr obj key)).
Proof.
  unfold _getattr, attribute_access.
  destruct (py_getattr _ _ obj key) as [found|e] eqn:E; [done |].
  by rewrite (py_getattr_raises _ _ _ E).
Qed.

Lemma _obj_get_eq obj key fallback :
  (forall x name, obj = OVal (VXml x) -> key = KStr name -> element_name_error name = None) ->
  _obj_get builtin_attr object_attr element_name_error obj key fallback
  = Ok (default fallback
          (mapping_access builtin_attr object_attr element_name_error obj key)).
Proof.
  intros Hname. unfold _obj_get, mapping_access.
  destruct obj as [ev | v].
  - unfold py_call_get. destruct (ev_dict ev !! "get"); [done |].
    unfold Event_get, attribute_access.
    destruct (py_getattr _ _ (OEvent ev) key) as [found|e] eqn:E; [done |].
    simpl. by rewrite (py_getattr_raises _ _ _ E).
  - destruct v as [| | | | | | kvs | [tag attrib text children tail] | | |];
      try reflexivity.
    destruct key as [name|n]; [| reflexivity].
    simpl. by rewrite (Hname _ name eq_refl eq_refl).
Qed.

Lemma accepted_cons key keys :
  (accepted_by_lxml element_name_error element_index_error) (key :: keys) ->
  (forall i, py_int key = Ok i -> element_index_error i = None)
  /\ (forall name, key = KStr name -> element_name_error name = None)
  /\ (accepted_by_lxml element_name_error element_index_error) keys.
Proof.
  intros [Hname Hindex]. split; [| split; [| split]].
  - intros i Hi. apply (Hindex key i); [by left | exact Hi].
  - intros name ->. apply Hname. by left.
  - intros name Hin. apply Hname. by right.
  - intros k i Hin. apply Hindex. by right.
Qed.

Lemma accepted_app keys more :
  (accepted_by_lxml element_name_error element_index_error) (keys ++ more) -> (accepted_by_lxml element_name_error element_index_error) keys /\ (accepted_by_lxml element_name_error element_index_error) more.
Proof.
  intros [Hname Hindex]. split; split.
  - intros name Hin. apply Hname. apply elem_of_app. by left.
  - intros k i Hin. apply Hindex. apply elem_of_app. by left.
  - intros name Hin. apply Hname. apply elem_of_app. by right.
  - intros k i Hin. apply Hindex. apply elem_of_app. by right.
Qed.

(** One step of the fold is one step of the walk; the checks of lxml
    matter only where the step is taken on an element. *)
Lemma lookup_step_found obj key :
  (forall x, obj = OVal (VXml x) -> (accepted_by_lxml element_name_error element_index_error) [key]) ->
  (lookup_step builtin_attr object_attr element_name_error element_index_error) obj key = Ok ((found_at builtin_attr object_attr element_name_error element_index_error) obj key).
Proof.
  intros H. unfold lookup_step, found_at.
  rewrite _list_get_eq; last first.
  { intros x i Hx Hi. by destruct (accepted_cons _ _ (H x Hx)) as (Hindex & _); auto. }
  cbn [bind]. rewrite _getattr_eq. cbn [bind]. apply _obj_get_eq.
  intros x name Hx Hk. by destruct (accepted_cons _ _ (H x Hx)) as (_ & Hname & _); auto.
Qed.

Lemma lookup_step_eq obj key :
  (accepted_by_lxml element_name_error element_index_error) [key] ->
  (lookup_step builtin_attr object_attr element_name_error element_index_error) obj key = Ok ((found_at builtin_attr object_attr element_name_error element_index_error) obj key).
Proof. intros H. by apply lookup_step_found. Qed.

Lemma accepted_head key keys : (accepted_by_lxml element_name_error element_index_error) (key :: keys) -> (accepted_by_lxml element_name_error element_index_error) [key].
Proof. intros H. by apply (accepted_app [key] keys) in H as [H _]. Qed.

(** The fold over the keys is the walk. *)
Lemma reduce_walk obj keys :
  (accepted_by_lxml element_name_error element_index_error) keys ->
  reduce (lookup_step builtin_attr object_attr element_name_error element_index_error) obj keys = Ok ((walk builtin_attr object_attr element_name_error element_index_error) obj keys).
Proof.
  revert obj. induction keys as [|key keys IH]; intros obj H; [done |].
  cbn [reduce walk]. rewrite (lookup_step_eq _ _ (accepted_head _ _ H)). cbn [bind].
  apply IH. by apply accepted_cons in H as (_ & _ & H).
Qed.

Lemma walk_app obj keys more :
  (walk builtin_attr object_attr element_name_error element_index_error) obj (keys ++ more) = (walk builtin_attr object_attr element_name_error element_index_error) ((walk builtin_attr object_attr element_name_error element_index_error) obj keys) more.
Proof.
  revert obj. induction keys as [|key keys IH]; intros obj; [done |].
  simpl. apply IH.
Qed.

(** Once the sentinel is reached it stays: its [get] returns itself. *)
Lemma walk_null keys : (walk builtin_attr object_attr element_name_error element_index_error) (OVal VNull) keys = OVal VNull.
Proof. induction keys as [|key keys IH]; [done |]. exact IH. Qed.

(** C9, as the code has it. For every event and every path that is a
    [str] key or a list of [str] and [int] steps which lxml accepts as names
    and indices, [lookup] returns, and what it returns is the value the
    walk along the path ends at, [None] standing for absent. Each step
    evaluates the index access, then the attribute access with the result
    of the first as its default, then [get] with the result of the second
    as its default: the three are attempted in that order and the last one
    that finds something wins, so the step yields what [get] finds, else
    the attribute, else the indexed item, else the sentinel. When all three
    find nothing at some step, the sentinel is carried to the end of the
    path and the result is [None]. *)
Theorem lookup_never_raises :
  (forall self s,
      (accepted_by_lxml element_name_error element_index_error) [KStr s] ->
      (lookup builtin_attr object_attr element_name_error element_index_error) self (PathKey s) = Ok (absent_to_None ((walk builtin_attr object_attr element_name_error element_index_error) (OEvent self) [KStr s])))
  /\ (forall self keys,
        (accepted_by_lxml element_name_error element_index_error) keys ->
        (lookup builtin_attr object_attr element_name_error element_index_error) self (PathList keys) = Ok (absent_to_None ((walk builtin_attr object_attr element_name_error element_index_error) (OEvent self) keys)))
  /\ (forall obj key,
        (lookup_step builtin_attr object_attr element_name_error element_index_error) obj key
        = (by_index <- _list_get element_index_error obj key (OVal VNull) ;;
           by_attribute <- _getattr builtin_attr object_attr obj key by_index ;;
           _obj_get builtin_attr object_attr element_name_error obj key by_attribute))
  /\ (forall obj key,
        (accepted_by_lxml element_name_error element_index_error) [key] ->
        (lookup_step builtin_attr object_attr element_name_error element_index_error) obj key = Ok ((found_at builtin_attr object_attr element_name_error element_index_error) obj key)
        /\ (forall v,
              mapping_access builtin_attr object_attr element_name_error obj key
              = Some v ->
              (found_at builtin_attr object_attr element_name_error element_index_error) obj key = v)
        /\ (forall v,
              mapping_access builtin_attr object_attr element_name_error obj key
              = None ->
              attribute_access builtin_attr object_attr obj key = Some v ->
              (found_at builtin_attr object_attr element_name_error element_index_error) obj key = v)
        /\ (forall v,
              mapping_access builtin_attr object_attr element_name_error obj key
              = None ->
              attribute_access builtin_attr object_attr obj key = None ->
              index_access element_index_error obj key = Some v ->
              (found_at builtin_attr object_attr element_name_error element_index_error) obj key = v))
  /\ (forall self keys key rest,
        (accepted_by_lxml element_name_error element_index_error) (keys ++ key :: rest) ->
        index_access element_index_error ((walk builtin_attr object_attr element_name_error element_index_error) (OEvent self) keys) key = None ->
        attribute_access builtin_attr object_attr ((walk builtin_attr object_attr element_name_error element_index_error) (OEvent self) keys) key = None ->
        mapping_access builtin_attr object_attr element_name_error
          ((walk builtin_attr object_attr element_name_error element_index_error) (OEvent self) keys) key = None ->
        (lookup builtin_attr object_attr element_name_error element_index_error) self (PathList (keys ++ key :: rest)) = Ok (OVal VNone)).
Proof.
  assert (forall self keys,
             (accepted_by_lxml element_name_error element_index_error) keys ->
             (lookup builtin_attr object_attr element_name_error element_index_error) self (PathList keys)
             = Ok (absent_to_None ((walk builtin_attr object_attr element_name_error element_index_error) (OEvent self) keys))) as Hlist.
  { intros self keys H. unfold lookup. cbn [path_keys bind].
    by rewrite (reduce_walk _ _ H). }
  split; [| split; [exact Hlist | split; [| split]]].
  - intros self s H. unfold lookup. cbn [path_keys bind].
    by rewrite (reduce_walk _ _ H).
  - intros obj key. reflexivity.
  - intros obj key H. split; [by apply lookup_step_eq |].
    unfold found_at. split; [| split].
    + by intros v ->.
    + by intros v -> ->.
    + by intros v -> -> ->.
  - intros self keys key rest H Hi Ha Hm.
    rewrite (Hlist _ _ H), walk_app. cbn [walk].
    unfold found_at at 1. rewrite Hi, Ha, Hm. cbn [default].
    by rewrite walk_null.
Qed.

End LookupProperties.


(** A path through a property, a mapping key, a list index given as text
    and a mapping key again. *)
Example lookup_amount :
  lookup no_builtin_attr no_object_attr lxml_name_error lxml_index_error order_event
    (PathList [KStr "data"; KStr "items"; KStr "0"; KStr "amount"])
  = Ok (OVal (VStr "85")).
Proof. vm_compute. reflexivity. Qed.

Example lookup_single_key :
  lookup no_builtin_attr no_object_attr lxml_name_error lxml_index_error order_event
    (PathKey "service")
  = Ok (OVal (VStr "default")).
Proof. vm_compute. reflexivity. Qed.

Example lookup_index_out_of_range :
  lookup no_builtin_attr no_object_attr lxml_name_error lxml_index_error order_event
    (PathList [KStr "data"; KStr "items"; KInt 3; KStr "amount"])
  = Ok (OVal VNone).
Proof. vm_compute. reflexivity. Qed.

(** Where lxml rejects a step, its exception is caught by none of the three
    wrappers: the empty name on an XML payload. *)
Example lookup_empty_name :
  lookup no_builtin_attr no_object_attr lxml_name_error lxml_index_error xml_event
    (PathList [KStr "data"; KStr ""])
  = Raise ValueError.
Proof. vm_compute. reflexivity. Qed.

Lemma accepted_by_example_lxml keys :
  forallb plain_step keys = true ->
  accepted_by_lxml lxml_name_error lxml_index_error keys.
Proof.
  intros H. rewrite forallb_forall in H. split.
  - intros name Hin. apply list_elem_of_In, H in Hin.
    unfold plain_step in Hin. apply andb_true_iff in Hin as [Hne _].
    unfold lxml_name_error. destruct (String.eqb_spec name "") as [->|]; [| done].
    by rewrite bool_decide_eq_true_2 in Hne.
  - intros key i Hin Hi. apply list_elem_of_In, H in Hin.
    unfold plain_step in Hin. rewrite Hi in Hin.
    apply andb_true_iff in Hin as [_ Hrange].
    apply andb_true_iff in Hrange as [Hlow Hhigh].
    apply Z.leb_le in Hlow. apply Z.ltb_lt in Hhigh.
    unfold lxml_index_error.
    destruct (Z.ltb_spec i (- 2 ^ 63)); [lia |].
    destruct (Z.leb_spec (2 ^ 63) i); [lia | done].
Qed.

(** A key that is missing in the payload, followed by one more step; and a
    path given as one key. *)
Lemma lookup_witness :
  lookup no_builtin_attr no_object_attr lxml_name_error lxml_index_error order_event
    (PathList ([KStr "data"] ++ KStr "missing" :: [KStr "deeper"]))
  = Ok (OVal VNone)
  /\ lookup no_builtin_attr no_object_attr lxml_name_error lxml_index_error order_event
       (PathKey "service")
     = Ok (OVal (VStr "default")).
Proof.
  destruct (lookup_never_raises no_builtin_attr no_object_attr
              lxml_name_error lxml_index_error) as (Hkey & _ & _ & _ & Hmissing).
  split.
  - apply (Hmissing order_event [KStr "data"] (KStr "missing") [KStr "deeper"]);
      [| reflexivity | reflexivity | reflexivity].
    apply accepted_by_example_lxml. reflexivity.
  - rewrite (Hkey order_event "service"); [reflexivity |].
    apply accepted_by_example_lxml. reflexivity.
Defined.


(** When the key of a mapping is also the name of one of its methods, the
    key wins; the method is found only when the key is absent. *)
Example lookup_key_before_method :
  lookup mapping_methods no_object_attr lxml_name_error lxml_index_error order_event
    (PathList [KStr "data"; KStr "items"])
  = Ok (OVal (VList [VDict [(KStr "amount", VStr "85")]]))
  /\ lookup mapping_methods no_object_attr lxml_name_error lxml_index_error json_event
       (PathList [KStr "data"; KStr "items"])
     = Ok (OVal (VOpaque "builtin_function_or_method")).
Proof. split; vm_compute; reflexivity. Qed.

(** C9 as stated fails. The accesses are attempted in the order the claim
    gives, but the first that succeeds does not settle the step: on the
    payload [{"items": [...]}] the attribute access finds the method
    [items] of the mapping, and the step still yields what the key holds.
    And not every path returns: a tuple of keys, or one key that is a
    [unicode], raises [TypeError]. *)
Lemma lookup_last_access_wins :
  attribute_access mapping_methods no_object_attr
    (OVal (VDict [(KStr "items", VList [VDict [(KStr "amount", VStr "85")]])]))
    (KStr "items")
  = Some (OVal (VOpaque "builtin_function_or_method"))
  /\ lookup mapping_methods no_object_attr lxml_name_error lxml_index_error order_event
       (PathList [KStr "data"; KStr "items"])
     = Ok (OVal (VList [VDict [(KStr "amount", VStr "85")]]))
  /\ lookup mapping_methods no_object_attr lxml_name_error lxml_index_error order_event
       (PathTuple [KStr "data"; KStr "items"])
     = Raise TypeError
  /\ lookup mapping_methods no_object_attr lxml_name_error lxml_index_error order_event
       (PathUnicode "service")
     = Raise TypeError.
Proof. repeat split; vm_compute; reflexivity. Qed.


(** * Further properties *)

(** ** The payload setter keeps the event whole *)

(** X3: an assignment to [data] either stores the converted value in the
    payload slot and changes nothing else, or raises
    [InvalidEventDataModification] and leaves the event exactly as it was:
    a rejected payload never replaces the stored one. *)
Theorem set_data_all_or_nothing lib self d after r :
  ev_class self ∈ built_classes ->
  set_data lib d self = (after, r) ->
  (exists v, convert_data lib (ev_class self) d = Ok v
             /\ r = Ok tt /\ after = set_slot self "_data" v)
  \/ (convert_data lib (ev_class self) d = Raise (Raised InvalidEventDataModification)
      /\ r = Raise (Raised InvalidEventDataModification) /\ after = self).
Proof.
  intros Hc. unfold set_data, and_then, lift.
  destruct (convert_data_outcome lib (ev_class self) d Hc) as [[v ->] | ->].
  - intros [= <- <-]. left. by exists v.
  - intros [= <- <-]. by right.
Qed.

(** A JSON event given an integer keeps its payload. *)
Lemma set_data_all_or_nothing_witness :
  set_data example_lib (VInt 5) json_event
  = (json_event, Raise (Raised InvalidEventDataModification)).
Proof.
  destruct (set_data_all_or_nothing example_lib json_event (VInt 5)
              (fst (set_data example_lib (VInt 5) json_event))
              (snd (set_data example_lib (VInt 5) json_event)))
    as [(v & Hv & _) | (_ & Hr & Hafter)].
  - by_evaluation.
  - apply surjective_pairing.
  - discriminate Hv.
  - rewrite (surjective_pairing (set_data example_lib (VInt 5) json_event)).
    by rewrite Hr, Hafter.
Defined.

(** ** Construction of an event *)

(** [Event.__init__] on an instance that has no identifier yet: it runs up
    to the payload setter, and ends there when the payload is rejected. *)
Lemma Event__init___run lib uuid_hex now meta_id service data kwargs self :
  ev_class self ∈ built_classes ->
  ev_dict self !! "_event_id" = None ->
  let named :=
    set_slot
      (set_slot (set_slot self "_event_id" (VStr uuid_hex)) "meta_id"
         (if truthy meta_id then meta_id else VStr uuid_hex))
      "service" (if truthy service then service else VStr DEFAULT_EVENT_SERVICE) in
  Event__init__ lib uuid_hex now meta_id service data kwargs self
  = match convert_data lib (ev_class self) data with
    | Ok v =>
        ({| ev_class := ev_class self;
            ev_dict := kwargs ∪ <["created" := now]>
                         (<["_error" := VNone]> (<["_data" := v]> (ev_dict named))) |},
         Ok tt)
    | Raise _ => (named, Raise (Raised InvalidEventDataModification))
    end.
Proof.
  intros Hc Hid named. unfold Event__init__.
  erewrite and_then_step; last first.
  { unfold set_event_id. rewrite Hid. reflexivity. }
  erewrite and_then_step; last first.
  { unfold getattr, get_slot. simpl. by rewrite lookup_insert_eq. }
  erewrite and_then_step; [| reflexivity].
  erewrite and_then_step; [| reflexivity].
  fold named.
  destruct (convert_data_outcome lib (ev_class self) data Hc) as [[v Hv] | Hraise].
  - erewrite and_then_step; last first.
    { unfold set_data. simpl. unfold and_then, lift. rewrite Hv. reflexivity. }
    erewrite and_then_step; last first.
    { by apply set_error_None. }
    erewrite and_then_step; [| reflexivity].
    rewrite Hv. reflexivity.
  - rewrite Hraise. unfold and_then at 1. unfold set_data. simpl.
    unfold and_then, lift. by rewrite Hraise.
Qed.


(** X2: what [Event(meta_id, service, data, **kwargs)] builds for the
    classes that use [Event.__init__]. The extra keyword arguments are
    stored last and win; where they name no slot, the identifier is the
    fresh one, [meta_id] falls back to the identifier and [service] to
    ["default"] when not given or false, the error is [None], and the
    payload is what the setter of the class makes of [data]. The only way
    the construction fails is [InvalidEventDataModification] from the
    payload setter, and a plain [Event] is always built. *)
Theorem Event_constructor_contract lib uuid_hex now cls meta_id service data kwargs :
  cls ∈ [Event; XMLEvent; JSONEvent] ->
  (forall ev,
      new_Event lib uuid_hex now cls meta_id service data kwargs = Ok ev ->
      ev_class ev = cls
      /\ (forall k v, kwargs !! k = Some v -> ev_dict ev !! k = Some v)
      /\ (kwargs !! "_event_id" = None ->
          ev_dict ev !! "_event_id" = Some (VStr uuid_hex))
      /\ (kwargs !! "meta_id" = None ->
          ev_dict ev !! "meta_id"
          = Some (if truthy meta_id then meta_id else VStr uuid_hex))
      /\ (kwargs !! "service" = None ->
          ev_dict ev !! "service"
          = Some (if truthy service then service else VStr "default"))
      /\ (kwargs !! "_error" = None -> ev_dict ev !! "_error" = Some VNone)
      /\ (kwargs !! "created" = None -> ev_dict ev !! "created" = Some now)
      /\ (kwargs !! "_data" = None ->
          exists v, convert_data lib cls data = Ok v
                    /\ ev_dict ev !! "_data" = Some v))
  /\ (forall e,
        new_Event lib uuid_hex now cls meta_id service data kwargs = Raise e ->
        e = Raised InvalidEventDataModification
        /\ convert_data lib cls data = Raise (Raised InvalidEventDataModification))
  /\ (cls = Event ->
      exists ev, new_Event lib uuid_hex now cls meta_id service data kwargs = Ok ev).
Proof.
  intros Hcls.
  assert (cls ∈ built_classes) as Hbuilt by (class_cases Hcls; by_evaluation).
  unfold new_Event, construct.
  rewrite (Event__init___run lib uuid_hex now meta_id service data kwargs
             {| ev_class := cls; ev_dict := ∅ |} Hbuilt (lookup_empty _)).
  simpl.
  destruct (convert_data_outcome lib cls data Hbuilt) as [[v Hv] | Hraise].
  - rewrite Hv. split; [| split].
    + intros ev [= <-]. simpl. split; [done |].
      split; [intros k w Hk; by apply lookup_union_Some_l |].
      repeat split; try (intros Hk; rewrite lookup_union_r by done;
                         by simplify_map_eq).
      intros Hk. exists v. split; [done |].
      rewrite lookup_union_r by done. by simplify_map_eq.
    + discriminate.
    + intros _. eauto.
  - rewrite Hraise. split; [| split].
    + discriminate.
    + by intros e [= <-].
    + intros ->. by rewrite (convert_data_plain lib Event data) in Hraise
        by by_evaluation.
Qed.

(** A plain event built from text, with one extra keyword argument. *)
Lemma Event_constructor_witness :
  exists ev,
    new_Event example_lib "0f3a" (VOpaque "datetime") Event VNone VNone
      (VStr "payload") {[ "origin" := VStr "test" ]} = Ok ev.
Proof.
  apply (Event_constructor_contract example_lib "0f3a" (VOpaque "datetime")
           Event VNone VNone (VStr "payload") {[ "origin" := VStr "test" ]});
    [by_evaluation | reflexivity].
Defined.

(** ** The identifier cannot be replaced *)




(** ** Empty payloads *)

(** X4: what the families make of an empty payload, whatever the libraries
    do. A JSON event given [None] stores the empty mapping and a class
    without a payload format stores [None] itself; an XML event given the
    empty mapping raises [InvalidEventDataModification], because the
    envelope helper asks an empty mapping for its first item. *)
Theorem empty_payloads lib c :
  c ∈ built_classes ->
  (JSON ∈ capabilities c -> convert_data lib c VNone = Ok (VDict []))
  /\ (capabilities c ## data_formats -> convert_data lib c VNone = Ok VNone)
  /\ (XML ∈ capabilities c ->
      convert_data lib c (VDict []) = Raise (Raised InvalidEventDataModification)
      /\ forall d,
           set_data lib (VDict []) {| ev_class := c; ev_dict := d |}
           = ({| ev_class := c; ev_dict := d |},
              Raise (Raised InvalidEventDataModification))).
Proof.
  intros Hc. split; [| split].
  - intros H. class_cases Hc; evaluate_in H; reflexivity.
  - intros H. by apply convert_data_plain.
  - intros H. class_cases Hc; evaluate_in H; split; reflexivity.
Qed.

(** The three cases on [JSONEvent], [Event] and [XMLEvent]. *)
Lemma empty_payloads_witness :
  convert_data example_lib JSONEvent VNone = Ok (VDict [])
  /\ convert_data example_lib Event VNone = Ok VNone
  /\ convert_data example_lib XMLEvent (VDict [])
     = Raise (Raised InvalidEventDataModification).
Proof.
  split; [| split].
  - apply (empty_payloads example_lib JSONEvent); by_evaluation.
  - apply (empty_payloads example_lib Event); by_evaluation.
  - apply (empty_payloads example_lib XMLEvent); by_evaluation.
Defined.

(** ** The envelope, there and back *)

(** X5: unwrapping what the wrapper produced gives the value back for a
    mapping with several keys, for a single-key mapping whose value is a
    sequence, and for a single-key mapping whose key is not the envelope
    key. It does not for a sequence, which is wrapped twice and unwrapped
    once, so a second unwrapping is needed; and a single-key mapping that
    uses the envelope key itself is not wrapped but is unwrapped, and comes
    back as its bare value. *)
Theorem envelope_round_trips :
  (forall kv1 kv2 kvs,
      envelope_round_trip (VDict (kv1 :: kv2 :: kvs)) = Ok (VDict (kv1 :: kv2 :: kvs)))
  /\ (forall k vs,
        envelope_round_trip (VDict [(k, VList vs)]) = Ok (VDict [(k, VList vs)]))
  /\ (forall k v,
        k <> envelope_key ->
        envelope_round_trip (VDict [(k, v)]) = Ok (VDict [(k, v)]))
  /\ (forall vs,
        envelope_round_trip (VList vs) = Ok (envelope (VList vs))
        /\ remove_internal_xmlify (envelope (VList vs)) = Ok (VList vs))
  /\ (forall v,
        isinstance_list v = false ->
        envelope_round_trip (VDict [(envelope_key, v)]) = Ok v).
Proof.
  split; [| split; [| split; [| split]]].
  - intros kv1 kv2 kvs. reflexivity.
  - intros k vs. reflexivity.
  - intros k v Hk. unfold envelope_round_trip, internal_xmlify. simpl.
    destruct (isinstance_list v); simpl; [reflexivity |].
    unfold remove_internal_xmlify. simpl.
    by destruct (decide (k = envelope_key)).
  - intros vs. split; reflexivity.
  - intros v Hv. unfold envelope_round_trip, internal_xmlify. simpl.
    rewrite Hv. reflexivity.
Qed.

(** A mapping keyed by [root], and one keyed by the envelope key. *)
Lemma envelope_round_trips_witness :
  envelope_round_trip (VDict [(KStr "root", VStr "x")]) = Ok (VDict [(KStr "root", VStr "x")])
  /\ envelope_round_trip (VDict [(envelope_key, VStr "x")]) = Ok (VStr "x").
Proof.
  destruct envelope_round_trips as (_ & _ & Hkeep & _ & Hbare).
  split; [apply Hkeep; discriminate | apply Hbare; reflexivity].
Defined.

(** ** The force_list callback *)

Lemma dict_get_pop_ne kvs k k' :
  k' <> k -> dict_get (dict_pop kvs k) k' = dict_get kvs k'.
Proof.
  intros Hne. induction kvs as [|[k0 v0] kvs IH]; simpl; [done |].
  destruct (decide (k0 = k)) as [->|Hk0]; simpl.
  - by destruct (decide (k = k')) as [->|].
  - destruct (decide (k0 = k')); [done | exact IH].
Qed.

Lemma dict_get_None_not_key kvs k :
  k ∉ map fst kvs -> dict_get kvs k = None.
Proof.
  induction kvs as [|[k0 v0] kvs IH]; simpl; [done |].
  intros Hk. destruct (decide (k0 = k)) as [->|_].
  - destruct Hk. by left.
  - apply IH. intros Hin. apply Hk. by right.
Qed.

Lemma dict_get_pop_eq kvs k :
  unique_keys kvs -> dict_get (dict_pop kvs k) k = None.
Proof.
  unfold unique_keys. induction kvs as [|[k0 v0] kvs IH]; simpl; [done |].
  intros Hnd. apply NoDup_cons in Hnd as [Hk0 Hnd].
  destruct (decide (k0 = k)) as [->|Hne]; simpl.
  - by apply dict_get_None_not_key.
  - destruct (decide (k0 = k)); [done | by apply IH].
Qed.

(** X6: the callback answers [True] exactly for a mapping that has the
    [@force_list] entry. It then hands the mapping back without that entry
    and with every other entry as it was; any other value is handed back
    untouched with the answer [False]. *)
Theorem should_force_list_pops path key value :
  (forall kvs,
      value = VDict kvs -> unique_keys kvs ->
      exists kvs',
        should_force_list path key value
        = (bool_decide (is_Some (dict_get kvs (KStr "@force_list"))), VDict kvs')
        /\ dict_get kvs' (KStr "@force_list") = None
        /\ forall k, k <> KStr "@force_list" -> dict_get kvs' k = dict_get kvs k)
  /\ (isinstance_dict value = false ->
      should_force_list path key value = (false, value)).
Proof.
  split.
  - intros kvs -> Hunique. unfold should_force_list.
    destruct (dict_get kvs (KStr "@force_list")) as [marker|] eqn:E.
    + exists (dict_pop kvs (KStr "@force_list")).
      split; [by rewrite bool_decide_eq_true_2 |].
      split; [by apply dict_get_pop_eq |].
      intros k Hk. by apply dict_get_pop_ne.
    + exists kvs. split; [| done].
      rewrite bool_decide_eq_false_2; [done |]. by intros [? ?].
  - intros Hnot. by destruct value.
Qed.

(** An element with the marker and one child, and a piece of text. *)
Lemma should_force_list_witness :
  (exists kvs',
      should_force_list [] "item"
        (VDict [(KStr "@force_list", VStr "true"); (KStr "amount", VStr "85")])
      = (true, VDict kvs')
      /\ dict_get kvs' (KStr "@force_list") = None
      /\ dict_get kvs' (KStr "amount") = Some (VStr "85"))
  /\ should_force_list [] "amount" (VStr "85") = (false, VStr "85").
Proof.
  split.
  - destruct (should_force_list_pops [] "item"
                (VDict [(KStr "@force_list", VStr "true"); (KStr "amount", VStr "85")]))
      as [Hdict _].
    destruct (Hdict _ eq_refl) as (kvs' & Heq & Hgone & Hkept).
    + by_evaluation.
    + exists kvs'. split; [exact Heq |]. split; [exact Hgone |].
      by rewrite Hkept.
  - by apply should_force_list_pops.
Defined.

(** ** Status text *)

Lemma split_first_at code sep reason :
  has_status_separator code = false ->
  is_status_separator sep = true ->
  split_first (code +:+ String sep reason) = Some (code, reason).
Proof.
  unfold has_status_separator. intros Hcode Hsep.
  induction code as [|c code IH]; simpl in *.
  - by rewrite Hsep.
  - apply orb_false_iff in Hcode as [Hc Hrest].
    rewrite Hc. by rewrite (IH Hrest).
Qed.

(** X7: status text is split at its first space or hyphen only. When the
    part before it reads as an integer, the status becomes that integer
    paired with all the rest, later separators included; when it does not,
    the assignment raises [ValueError] and the event is left as it was. *)
Theorem status_text_is_split_once self code sep reason :
  has_status_separator code = false ->
  is_status_separator sep = true ->
  set_status (VStr (code +:+ String sep reason)) self
  = match py_int_str code with
    | Ok n => (set_slot self "_status" (VTuple [VInt n; VStr reason]), Ok tt)
    | Raise _ => (self, Raise ValueError)
    end.
Proof.
  intros Hcode Hsep. unfold set_status, re_split_1.
  rewrite (split_first_at code sep reason Hcode Hsep).
  unfold and_then, lift.
  destruct (py_int_str code) as [n|e] eqn:E; [reflexivity |].
  by rewrite (py_int_raises (KStr code) e E).
Qed.

(** [404 Not Found], [503-Service Unavailable] and [OK 200]. *)
Lemma status_text_witness :
  set_status (VStr "404 Not Found") fresh_http_event
  = (set_slot fresh_http_event "_status" (VTuple [VInt 404; VStr "Not Found"]), Ok tt)
  /\ set_status (VStr "503-Service Unavailable") fresh_http_event
     = (set_slot fresh_http_event "_status"
          (VTuple [VInt 503; VStr "Service Unavailable"]), Ok tt)
  /\ set_status (VStr "OK 200") fresh_http_event = (fresh_http_event, Raise ValueError).
Proof.
  split; [| split].
  - apply (status_text_is_split_once fresh_http_event "404" " " "Not Found");
      reflexivity.
  - apply (status_text_is_split_once fresh_http_event "503" "-" "Service Unavailable");
      reflexivity.
  - apply (status_text_is_split_once fresh_http_event "OK" " " "200"); reflexivity.
Defined.


(** ** Errors on HTTP events *)

Lemma dict_get_set kvs k v k' :
  dict_get (dict_set kvs k v) k' = if decide (k = k') then Some v else dict_get kvs k'.
Proof.
  induction kvs as [|[k0 v0] kvs IH]; simpl.
  - by destruct (decide (k = k')).
  - destruct (decide (k0 = k)) as [->|Hne]; simpl.
    + by destruct (decide (k = k')).
    + destruct (decide (k0 = k')) as [->|]; [| exact IH].
      by rewrite decide_False by done.
Qed.

(** [update] keeps what it does not overwrite. *)
Lemma dict_get_update kvs other k :
  unique_keys other ->
  dict_get (dict_update kvs other) k
  = match dict_get other k with
    | Some v => Some v
    | None => dict_get kvs k
    end.
Proof.
  unfold unique_keys, dict_update. revert kvs.
  induction other as [|[k0 v0] other IH]; intros kvs Hnd; simpl; [done |].
  apply NoDup_cons in Hnd as [Hk0 Hnd].
  rewrite (IH _ Hnd), dict_get_set.
  destruct (decide (k0 = k)) as [->|]; [| done].
  by rewrite (dict_get_None_not_key other k Hk0).
Qed.

Lemma table_status_is_error c :
  exists code reason,
    table_status c = VTuple [VInt code; VStr reason] /\ 300 <= code < 600.
Proof. destruct c; eexists _, _; (split; [reflexivity | lia]). Qed.

Lemma table_headers_unique c : unique_keys (table_headers c).
Proof. destruct c; by_evaluation. Qed.

Lemma py_update_table_headers hs c :
  py_update (VDict hs)
    (default (VDict []) (dict_get (http_code_map (CExc c)) (KStr "headers")))
  = Ok (VDict (dict_update hs (table_headers c))).
Proof. unfold table_headers. destruct c; reflexivity. Qed.

(** An HTTP-capable class takes [_set_error] from [HttpEvent]. *)
Lemma set_error_HttpEvent exception self :
  ev_class self ∈ built_classes -> HTTP ∈ capabilities (ev_class self) ->
  set_error exception self = HttpEvent__set_error exception self.
Proof.
  destruct self as [cls d]. simpl. intros Hc Hhttp.
  class_cases Hc; evaluate_in Hhttp; reflexivity.
Qed.

(** [HttpEvent._set_error] on an exception, when [headers] is a mapping. *)
Lemma HttpEvent__set_error_run self c message hs :
  ev_dict self !! "headers" = Some (VDict hs) ->
  HttpEvent__set_error (VExc c message) self
  = ({| ev_class := ev_class self;
        ev_dict := <["_error" := VExc c message]>
                     (<["headers" := VDict (dict_update hs (table_headers c))]>
                        (<["_status" := table_status c]> (ev_dict self))) |}, Ok tt).
Proof.
  intros Hheaders. unfold HttpEvent__set_error.
  destruct (table_status_is_error c) as (code & reason & Hstatus & _).
  rewrite (and_then_step _ _ self
             (set_slot (set_slot self "_status" (table_status c)) "headers"
                (VDict (dict_update hs (table_headers c)))) tt);
    [reflexivity |].
  erewrite and_then_step; last first.
  { fold (table_status c). rewrite Hstatus. reflexivity. }
  erewrite and_then_step; last first.
  { unfold getattr, get_slot. simpl. rewrite lookup_insert_ne by done.
    by rewrite Hheaders. }
  erewrite (and_then_step _ _ _ _ (VDict (dict_update hs (table_headers c))));
    last first.
  { unfold lift. by rewrite py_update_table_headers. }
  rewrite <- Hstatus. reflexivity.
Qed.

(** X8: setting an error on an HTTP-capable event whose [headers] are a
    mapping succeeds. The status becomes the pair the table gives the class
    of the error, which is a 3xx to 5xx code and is 500 for a class the
    table does not list; the headers of the entry are merged into the headers
    and every other header keeps its value; the error is stored; nothing
    else changes. *)
Theorem http_error_sets_status self c message hs :
  ev_class self ∈ built_classes -> HTTP ∈ capabilities (ev_class self) ->
  ev_dict self !! "headers" = Some (VDict hs) ->
  set_error (VExc c message) self
  = ({| ev_class := ev_class self;
        ev_dict := <["_error" := VExc c message]>
                     (<["headers" := VDict (dict_update hs (table_headers c))]>
                        (<["_status" := table_status c]> (ev_dict self))) |}, Ok tt)
  /\ (exists code reason,
        table_status c = VTuple [VInt code; VStr reason] /\ 300 <= code < 600)
  /\ (forall name,
        table_status (OtherException name)
        = VTuple [VInt 500; VStr "Internal Server Error"])
  /\ (forall k,
        dict_get (table_headers c) k = None ->
        dict_get (dict_update hs (table_headers c)) k = dict_get hs k).
Proof.
  intros Hc Hhttp Hheaders.
  split; [| split; [apply table_status_is_error | split; [reflexivity |]]].
  - rewrite (set_error_HttpEvent _ _ Hc Hhttp).
    by apply HttpEvent__set_error_run.
  - intros k Hk. rewrite dict_get_update by apply table_headers_unique.
    by rewrite Hk.
Qed.

(** [UnauthorizedEvent] on an event that already carries a header. *)
Lemma http_error_witness :
  set_error (VExc UnauthorizedEvent "denied") overridden_event
  = ({| ev_class := HttpEvent;
        ev_dict := <["_error" := VExc UnauthorizedEvent "denied"]>
                     (<["headers" := VDict (dict_update [(KStr "X-Trace", VStr "1")]
                                              (table_headers UnauthorizedEvent))]>
                        (<["_status" := table_status UnauthorizedEvent]>
                           (ev_dict overridden_event))) |}, Ok tt).
Proof.
  apply (http_error_sets_status overridden_event UnauthorizedEvent "denied"
           [(KStr "X-Trace", VStr "1")]).
  - by_evaluation.
  - by_evaluation.
  - reflexivity.
Defined.

(** ** What a conversion keeps *)

Lemma convert_class_result src tgt c :
  src ∈ built_classes -> tgt ∈ built_classes ->
  convert_class src tgt = Ok c ->
  c ∈ built_classes
  /\ issubclass c tgt = true
  /\ (HTTP ∈ capabilities src -> HTTP ∈ capabilities c).
Proof.
  intros Hs Ht H.
  class_cases Hs; class_cases Ht; vm_compute in H;
    first [discriminate H | injection H as <-];
    (split; [by_evaluation | split; [reflexivity |]]);
    intros Hhttp; first [by_evaluation | by evaluate_in Hhttp].
Qed.

(** A conversion that returned went through the payload setter of the
    selected class. *)
Lemma convert_Ok lib self tgt ev :
  convert lib self tgt = Ok ev ->
  exists c d v,
    convert_class (ev_class self) tgt = Ok c
    /\ ev_dict self !! "_data" = Some d
    /\ convert_data lib c d = Ok v
    /\ ev = {| ev_class := c; ev_dict := <["_data" := v]> (ev_dict self) |}.
Proof.
  unfold convert. destruct (convert_class (ev_class self) tgt) as [c|] eqn:Ec;
    [simpl | discriminate].
  unfold construct, and_then, update_dict, lift, get_data, get_slot, set_data.
  simpl. destruct (ev_dict self !! "_data") as [d|] eqn:Ed; [simpl | discriminate].
  unfold and_then, lift.
  destruct (convert_data lib c d) as [v|] eqn:Ev; [simpl | discriminate].
  intros [= <-]. exists c, d, v. repeat split; try done.
  unfold set_slot. simpl. by rewrite (right_id ∅ (∪)).
Qed.

(** X10: whenever a conversion between built classes returns, the result is
    an instance of the requested type, it is HTTP-capable if the source
    was, and every attribute other than the payload slot is the one of
    the source. *)
Theorem convert_result_invariants lib self tgt ev :
  ev_class self ∈ built_classes -> tgt ∈ built_classes ->
  convert lib self tgt = Ok ev ->
  ev_class ev ∈ built_classes
  /\ issubclass (ev_class ev) tgt = true
  /\ (HTTP ∈ capabilities (ev_class self) -> HTTP ∈ capabilities (ev_class ev))
  /\ (forall name, name <> "_data" -> ev_dict ev !! name = ev_dict self !! name).
Proof.
  intros Hs Ht Hconv.
  apply convert_Ok in Hconv as (c & d & v & Hc & _ & _ & ->). simpl.
  destruct (convert_class_result _ _ _ Hs Ht Hc) as (Hbuilt & Hsub & Hhttp).
  repeat split; try done.
  intros name Hname. by rewrite lookup_insert_ne.
Qed.

(** An XML event with the HTTP fields converted to [JSONEvent]. *)
Lemma convert_result_witness :
  exists ev,
    convert example_lib
      {| ev_class := XMLHttpEvent;
         ev_dict := {[ "_data" := VXml force_list_example; "headers" := VDict [] ]} |}
      JSONEvent = Ok ev
    /\ issubclass (ev_class ev) JSONEvent = true
    /\ HTTP ∈ capabilities (ev_class ev)
    /\ ev_dict ev !! "headers" = Some (VDict []).
Proof.
  eexists. split; [vm_compute; reflexivity |].
  edestruct (convert_result_invariants example_lib
               {| ev_class := XMLHttpEvent;
                  ev_dict := {[ "_data" := VXml force_list_example;
                                "headers" := VDict [] ]} |} JSONEvent)
    as (_ & Hsub & Hhttp & Hkeep).
  - by_evaluation.
  - by_evaluation.
  - vm_compute. reflexivity.
  - split; [exact Hsub |]. split; [apply Hhttp; by_evaluation |].
    by rewrite Hkeep.
Defined.

(** X9: [convert] does not run the initialiser of the new class. An event
    without [headers] converted to an HTTP-capable type still has none, so
    setting an error on the result raises [AttributeError] after the status
    was already changed, and the error itself is not stored. *)
Theorem converted_event_has_no_headers lib self tgt ev c message :
  ev_class self ∈ built_classes -> tgt ∈ built_classes ->
  ev_dict self !! "headers" = None ->
  convert lib self tgt = Ok ev ->
  HTTP ∈ capabilities (ev_class ev) ->
  ev_dict ev !! "headers" = None
  /\ set_error (VExc c message) ev
     = (set_slot ev "_status" (table_status c), Raise AttributeError).
Proof.
  intros Hs Ht Hnone Hconv Hhttp.
  pose proof Hconv as Hev.
  apply convert_Ok in Hev as (k & d & v & Hk & _ & _ & Hev).
  destruct (convert_class_result _ _ _ Hs Ht Hk) as (Hk' & _ & _).
  assert (ev_class ev ∈ built_classes) as Hbuilt by (by rewrite Hev).
  assert (ev_dict ev !! "headers" = None) as Hheaders.
  { rewrite Hev. simpl. by rewrite lookup_insert_ne. }
  split; [exact Hheaders |].
  rewrite (set_error_HttpEvent _ _ Hbuilt Hhttp).
  unfold HttpEvent__set_error.
  destruct (table_status_is_error c) as (code & reason & Hstatus & _).
  unfold and_then at 1. unfold and_then at 1.
  fold (table_status c). rewrite Hstatus. simpl.
  unfold and_then, getattr, get_slot. simpl.
  rewrite lookup_insert_ne by done. by rewrite Hheaders.
Qed.

(** A plain event converted to [HttpEvent], then given an error. *)
Lemma converted_event_witness :
  exists ev,
    convert example_lib int_event HttpEvent = Ok ev
    /\ ev_dict ev !! "headers" = None
    /\ set_error (VExc ResourceNotFound "missing") ev
       = (set_slot ev "_status" (table_status ResourceNotFound), Raise AttributeError).
Proof.
  eexists. split; [vm_compute; reflexivity |].
  eapply (converted_event_has_no_headers example_lib int_event HttpEvent).
  - by_evaluation.
  - by_evaluation.
  - reflexivity.
  - vm_compute. reflexivity.
  - by_evaluation.
Defined.

(** ** Walking the payload *)

Lemma lookup_data_step builtin_attr object_attr element_name_error element_index_error
    self d :
  ev_class self ∈ built_classes ->
  ev_dict self !! "_data" = Some d ->
  lookup_step builtin_attr object_attr element_name_error element_index_error
    (OEvent self) (KStr "data")
  = Ok (OVal d).
Proof.
  intros Hc Hd. rewrite lookup_step_found by discriminate.
  assert (attribute_access builtin_attr object_attr (OEvent self) (KStr "data")
          = Some (OVal d)) as Hattr.
  { unfold attribute_access, py_getattr, event_getattr.
    assert (resolve (ev_class self) "data" = Some (Event, Property "_data")) as ->
      by (class_cases Hc; reflexivity).
    by rewrite Hd. }
  unfold found_at, mapping_access. rewrite Hattr.
  by destruct (ev_dict self !! "get").
Qed.

Lemma reduce_dict_path builtin_attr object_attr element_name_error element_index_error
    keys d v :
  dict_path d keys = Some v ->
  reduce (lookup_step builtin_attr object_attr element_name_error element_index_error)
    (OVal d) (map KStr keys)
  = Ok (OVal v).
Proof.
  revert d. induction keys as [|key keys IH]; intros d; simpl.
  - by intros [= ->].
  - destruct d as [| | | | | | kvs | | | |]; try discriminate.
    destruct (dict_get kvs (KStr key)) as [inner|] eqn:E; [| discriminate].
    intros Hrest. rewrite lookup_step_found by discriminate.
    unfold found_at. simpl. rewrite E. simpl.
    by apply IH.
Qed.

(** X11: a path of keys that leads through nested mappings of the payload
    is followed to its end: [lookup(["data", k1, ..., kn])] returns the
    value stored under the keys, whatever attributes the mappings have and
    whether or not a key reads as an index. *)
Theorem lookup_walks_mappings builtin_attr object_attr element_name_error
    element_index_error self d keys v :
  ev_class self ∈ built_classes ->
  ev_dict self !! "_data" = Some d ->
  dict_path d keys = Some v ->
  lookup builtin_attr object_attr element_name_error element_index_error self
    (PathList (KStr "data" :: map KStr keys))
  = Ok (OVal (lookup_result v)).
Proof.
  intros Hc Hd Hpath. unfold lookup. cbn [path_keys bind reduce].
  rewrite (lookup_data_step _ _ _ _ _ _ Hc Hd). cbn [bind].
  rewrite (reduce_dict_path _ _ _ _ _ _ _ Hpath). cbn [bind].
  by destruct v.
Qed.

(** The city of the customer. *)
Lemma lookup_walks_mappings_witness :
  lookup mapping_methods no_object_attr lxml_name_error lxml_index_error customer_event
    (PathList [KStr "data"; KStr "customer"; KStr "address"; KStr "city"])
  = Ok (OVal (VStr "Oslo")).
Proof.
  apply (lookup_walks_mappings mapping_methods no_object_attr lxml_name_error
           lxml_index_error customer_event
           (VDict [(KStr "customer",
                    VDict [(KStr "address", VDict [(KStr "city", VStr "Oslo")])])])
           ["customer"; "address"; "city"] (VStr "Oslo")).
  - by_evaluation.
  - reflexivity.
  - reflexivity.
Defined.

Lemma seq_index_in_range {A : Type} (l : list A) i x :
  - Z.of_nat (length l) <= i < Z.of_nat (length l) ->
  nth_error l (Z.to_nat (i `mod` Z.of_nat (length l))) = Some x ->
  seq_index l i = Ok x.
Proof.
  intros Hi Hx. unfold seq_index.
  assert (i `mod` Z.of_nat (length l) = if i <? 0 then i + Z.of_nat (length l) else i)
    as Hmod.
  { destruct (Z.ltb_spec i 0).
    - rewrite <- (Z.mod_add i 1) by lia. rewrite Z.mod_small; lia.
    - rewrite Z.mod_small; lia. }
  rewrite Hmod in Hx.
  assert ((((if i <? 0 then i + Z.of_nat (length l) else i) <? 0)
           || (Z.of_nat (length l) <=? (if i <? 0 then i + Z.of_nat (length l) else i)))%bool
          = false) as ->.
  { apply orb_false_iff. destruct (Z.ltb_spec i 0); split;
      first [apply Z.ltb_ge | apply Z.leb_gt]; lia. }
  by rewrite Hx.
Qed.

Lemma seq_index_out_of_range {A : Type} (l : list A) i :
  i < - Z.of_nat (length l) \/ Z.of_nat (length l) <= i ->
  seq_index l i = Raise IndexError.
Proof.
  intros Hi. unfold seq_index.
  assert ((((if i <? 0 then i + Z.of_nat (length l) else i) <? 0)
           || (Z.of_nat (length l) <=? (if i <? 0 then i + Z.of_nat (length l) else i)))%bool
          = true) as ->; [| done].
  apply orb_true_iff. destruct (Z.ltb_spec i 0).
  - left. apply Z.ltb_lt. lia.
  - right. apply Z.leb_le. lia.
Qed.

(** X12: an integer step into a payload that is a list. An index within
    the list, counted from the front or, when negative, from the end,
    returns the element; an index outside the list returns [None] and does
    not raise. *)
Theorem lookup_list_index builtin_attr object_attr element_name_error
    element_index_error self vs i :
  ev_class self ∈ built_classes ->
  ev_dict self !! "_data" = Some (VList vs) ->
  (forall v,
      - Z.of_nat (length vs) <= i < Z.of_nat (length vs) ->
      nth_error vs (Z.to_nat (i `mod` Z.of_nat (length vs))) = Some v ->
      lookup builtin_attr object_attr element_name_error element_index_error self
        (PathList [KStr "data"; KInt i])
      = Ok (OVal (lookup_result v)))
  /\ (i < - Z.of_nat (length vs) \/ Z.of_nat (length vs) <= i ->
      lookup builtin_attr object_attr element_name_error element_index_error self
        (PathList [KStr "data"; KInt i])
      = Ok (OVal VNone)).
Proof.
  intros Hc Hd.
  assert (lookup builtin_attr object_attr element_name_error element_index_error self
            (PathList [KStr "data"; KInt i])
          = Ok (OVal (match seq_index vs i with
                      | Ok v => lookup_result v
                      | Raise _ => VNone
                      end))) as ->.
  { unfold lookup. cbn [path_keys bind reduce].
    rewrite (lookup_data_step _ _ _ _ _ _ Hc Hd). cbn [bind].
    rewrite lookup_step_found by discriminate.
    unfold found_at, index_access. simpl.
    destruct (seq_index vs i) as [v|e]; simpl; [by destruct v | done]. }
  split.
  - intros v Hi Hv. by rewrite (seq_index_in_range vs i v Hi Hv).
  - intros Hi. by rewrite (seq_index_out_of_range vs i Hi).
Qed.

(** The last letter by a negative index, and an index past the end. *)
Lemma lookup_list_index_witness :
  lookup no_builtin_attr no_object_attr lxml_name_error lxml_index_error letters_event
    (PathList [KStr "data"; KInt (-1)])
  = Ok (OVal (VStr "c"))
  /\ lookup no_builtin_attr no_object_attr lxml_name_error lxml_index_error letters_event
       (PathList [KStr "data"; KInt 3])
     = Ok (OVal VNone).
Proof.
  split.
  - destruct (lookup_list_index no_builtin_attr no_object_attr lxml_name_error
                lxml_index_error letters_event
                [VStr "a"; VStr "b"; VStr "c"] (-1)) as [Hin _];
      [by_evaluation | reflexivity |].
    apply (Hin (VStr "c")); [simpl; lia | reflexivity].
  - destruct (lookup_list_index no_builtin_attr no_object_attr lxml_name_error
                lxml_index_error letters_event
                [VStr "a"; VStr "b"; VStr "c"] 3) as [_ Hout];
      [by_evaluation | reflexivity |].
    apply Hout. simpl. lia.
Defined.

(** ** Properties other than the payload *)

Lemma get_properties_set_data self v :
  get_properties (set_slot self "_data" v) = get_properties self.
Proof.
  unfold get_properties, set_slot. simpl.
  apply map_filter_insert_not. intros y [_ H]. by apply H.
Qed.

(** X13: [get_properties] gives every attribute of the instance except the
    payload slot, each with its value. What it gives is the same before
    and after an assignment to [data], (accepted_by_lxml element_name_error element_index_error) or rejected, and the same
    for an event and for what [convert] makes of it. *)
Theorem get_properties_ignore_payload lib self :
  get_properties self !! "_data" = None
  /\ (forall name,
        name <> "data" -> name <> "_data" ->
        get_properties self !! name = ev_dict self !! name)
  /\ (forall d after r,
        set_data lib d self = (after, r) -> get_properties after = get_properties self)
  /\ (forall tgt ev,
        convert lib self tgt = Ok ev -> get_properties ev = get_properties self).
Proof.
  split; [| split; [| split]].
  - apply map_lookup_filter_None. right. intros x _ [_ H]. by apply H.
  - intros name H1 H2. unfold get_properties.
    destruct (ev_dict self !! name) as [x|] eqn:E.
    + by apply map_lookup_filter_Some.
    + apply map_lookup_filter_None. by left.
  - intros d after r. unfold set_data, and_then, lift.
    destruct (convert_data lib (ev_class self) d) as [v|e].
    + intros [= <- _]. apply get_properties_set_data.
    + by intros [= <- _].
  - intros tgt ev H.
    apply convert_Ok in H as (c & d & v & _ & _ & _ & ->).
    apply (get_properties_set_data {| ev_class := c; ev_dict := ev_dict self |} v).
Qed.

(** ** Event.set and Event.get *)



(** ** Conversion to the type the event already has *)

(** X15: converting an event to its own type gives the event back
    unchanged when the type has no payload format, and when the type holds
    XML and the payload is already a tree (the table keeps a tree as it
    is). *)
Theorem convert_to_own_class lib self d :
  ev_class self ∈ built_classes ->
  ev_dict self !! "_data" = Some d ->
  JSON ∉ capabilities (ev_class self) ->
  (XML ∈ capabilities (ev_class self) -> class_of d = CXml) ->
  convert lib self (ev_class self) = Ok self.
Proof.
  intros Hc Hd Hjson Hxml.
  assert (convert_class (ev_class self) (ev_class self) = Ok (ev_class self)) as Hsel.
  { unfold convert_class.
    assert (issubclass (ev_class self) (ev_class self) = true) as ->
      by (class_cases Hc; reflexivity).
    reflexivity. }
  rewrite (convert_selected lib self _ _ d Hsel Hd).
  assert (convert_data lib (ev_class self) d = Ok d) as ->.
  { destruct self as [cls m]. simpl in *.
    class_cases Hc;
      first [ reflexivity
            | by (exfalso; apply Hjson; by_evaluation)
            | (unfold convert_data; simpl; rewrite Hxml by by_evaluation;
               reflexivity) ]. }
  simpl. destruct self as [cls m]. simpl in *. by rewrite insert_id.
Qed.

(** An XML event that holds a tree. *)
Lemma convert_to_own_class_witness :
  convert example_lib xml_event XMLEvent = Ok xml_event.
Proof.
  apply (convert_to_own_class example_lib xml_event (VXml force_list_example)).
  - by_evaluation.
  - reflexivity.
  - by_evaluation.
  - reflexivity.
Defined.

(** ** Log events *)

(** X16: [LogEvent(level, origin_actor, message, id, sensitive)] is always
    built. Its payload is the mapping of [id], [level], [time],
    [origin_actor] and [message]; [meta_id] is [id], or the fresh
    identifier when [id] is not given or false. [Event.__init__] is not
    run, so the instance has no [_error], [service] or [created]: reading
    [error] raises [AttributeError]. *)
Theorem LogEvent_constructor lib uuid_hex time level origin_actor message id sensitive :
  exists ev,
    new_LogEvent lib uuid_hex time level origin_actor message id sensitive = Ok ev
    /\ ev_class ev = LogEvent
    /\ get_data ev
       = Ok (VDict [(KStr "id", id); (KStr "level", level); (KStr "time", time);
                    (KStr "origin_actor", origin_actor); (KStr "message", message)])
    /\ get_slot ev "_event_id" = Ok (VStr uuid_hex)
    /\ get_slot ev "meta_id" = Ok (if truthy id then id else VStr uuid_hex)
    /\ get_slot ev "sensitive" = Ok sensitive
    /\ get_error ev = Raise AttributeError
    /\ get_slot ev "service" = Raise AttributeError
    /\ get_slot ev "created" = Raise AttributeError.
Proof.
  eexists. split; [reflexivity |].
  repeat (split; [reflexivity |]). reflexivity.
Qed.
(** ** Construction of an HTTP event *)

(** [HttpEvent.__init__] with a tuple for [status] and a mapping for
    [environment] stores its five fields and goes on to [Event.__init__]. *)
Lemma HttpEvent__init___run lib uuid_hex now headers st env pagination
    meta_id service data kwargs self :
  HttpEvent__init__ lib uuid_hex now headers (VTuple st) (VDict env) pagination
    meta_id service data kwargs self
  = Event__init__ lib uuid_hex now meta_id service data kwargs
      (set_slot
         (set_slot
            (set_slot
               (set_slot
                  (set_slot self "headers" (if truthy headers then headers else VDict []))
                  "method" (default VNone (dict_get env (KStr "REQUEST_METHOD"))))
               "_status" (VTuple st))
            "environment" (VDict env))
         "_pagination" pagination).
Proof. reflexivity. Qed.

(** X17: what [HttpEvent(headers, status, environment, pagination, ...)]
    builds for the HTTP-capable classes, for a [status] that is a tuple (as
    the default is) and an [environment] that is a mapping. Where the extra
    keyword arguments name no slot: [headers] is the argument, or a new
    empty mapping when the argument is not given or empty; [method] is the
    [REQUEST_METHOD] entry of the environment, or [None]; status,
    environment and pagination are stored as given; the error is [None]
    and the identifier is the fresh one. The only way the construction
    fails is [InvalidEventDataModification] from the payload setter, and a
    plain [HttpEvent] is always built. *)
Theorem HttpEvent_constructor_contract lib uuid_hex now cls headers st env pagination
    meta_id service data kwargs :
  cls ∈ [HttpEvent; JSONHttpEvent; XMLHttpEvent] ->
  (forall ev,
      new_HttpEvent lib uuid_hex now cls headers (VTuple st) (VDict env) pagination
        meta_id service data kwargs = Ok ev ->
      ev_class ev = cls
      /\ (forall k v, kwargs !! k = Some v -> ev_dict ev !! k = Some v)
      /\ (kwargs !! "headers" = None ->
          ev_dict ev !! "headers"
          = Some (if truthy headers then headers else VDict []))
      /\ (kwargs !! "method" = None ->
          ev_dict ev !! "method"
          = Some (default VNone (dict_get env (KStr "REQUEST_METHOD"))))
      /\ (kwargs !! "_status" = None -> ev_dict ev !! "_status" = Some (VTuple st))
      /\ (kwargs !! "environment" = None ->
          ev_dict ev !! "environment" = Some (VDict env))
      /\ (kwargs !! "_pagination" = None ->
          ev_dict ev !! "_pagination" = Some pagination)
      /\ (kwargs !! "_error" = None -> ev_dict ev !! "_error" = Some VNone)
      /\ (kwargs !! "_event_id" = None ->
          ev_dict ev !! "_event_id" = Some (VStr uuid_hex))
      /\ (kwargs !! "_data" = None ->
          exists v, convert_data lib cls data = Ok v
                    /\ ev_dict ev !! "_data" = Some v))
  /\ (forall e,
        new_HttpEvent lib uuid_hex now cls headers (VTuple st) (VDict env) pagination
          meta_id service data kwargs = Raise e ->
        e = Raised InvalidEventDataModification
        /\ convert_data lib cls data = Raise (Raised InvalidEventDataModification))
  /\ (cls = HttpEvent ->
      exists ev,
        new_HttpEvent lib uuid_hex now cls headers (VTuple st) (VDict env) pagination
          meta_id service data kwargs = Ok ev).
Proof.
  intros Hcls.
  assert (cls ∈ built_classes) as Hbuilt by (class_cases Hcls; by_evaluation).
  unfold new_HttpEvent, construct.
  rewrite HttpEvent__init___run.
  rewrite Event__init___run; [| exact Hbuilt | reflexivity].
  simpl.
  destruct (convert_data_outcome lib cls data Hbuilt) as [[v Hv] | Hraise].
  - rewrite Hv. split; [| split].
    + intros ev [= <-]. simpl. split; [done |].
      split; [intros k w Hk; by apply lookup_union_Some_l |].
      repeat split; try (intros Hk; rewrite lookup_union_r by done;
                         by simplify_map_eq).
      intros Hk. exists v. split; [done |].
      rewrite lookup_union_r by done. by simplify_map_eq.
    + discriminate.
    + intros _. eauto.
  - rewrite Hraise. split; [| split].
    + discriminate.
    + by intros e [= <-].
    + intros ->. by rewrite (convert_data_plain lib HttpEvent data) in Hraise
        by by_evaluation.
Qed.

(** An HTTP event built from a request environment, with the defaults for
    the rest. *)
Lemma HttpEvent_constructor_witness :
  exists ev,
    new_HttpEvent example_lib "0f3a" (VOpaque "datetime") HttpEvent VNone
      (VTuple [VInt 200; VStr "OK"]) (VDict [(KStr "REQUEST_METHOD", VStr "GET")])
      VNone VNone VNone VNone ∅ = Ok ev.
Proof.
  apply (HttpEvent_constructor_contract example_lib "0f3a" (VOpaque "datetime")
           HttpEvent VNone [VInt 200; VStr "OK"] [(KStr "REQUEST_METHOD", VStr "GET")]
           VNone VNone VNone VNone ∅);
    [by_evaluation | reflexivity].
Defined.
(** ** Copying an event *)

(** [__setstate__] step by step: the dictionary is replaced first, then
    the payload and the error of the state go through their setters. *)
Lemma Event__setstate___run lib state self :
  Event__setstate__ lib state self
  = match state !! "_data" with
    | None => ({| ev_class := ev_class self; ev_dict := state |}, Raise KeyError)
    | Some d =>
        match convert_data lib (ev_class self) d with
        | Ok v =>
            set_error (default VNone (state !! "_error"))
              {| ev_class := ev_class self; ev_dict := <["_data" := v]> state |}
        | Raise e => ({| ev_class := ev_class self; ev_dict := state |}, Raise e)
        end
    end.
Proof.
  unfold Event__setstate__, and_then, lift, set_data. simpl.
  destruct (state !! "_data") as [d|]; [| reflexivity].
  unfold and_then, lift. simpl.
  by destruct (convert_data lib (ev_class self) d).
Qed.

Lemma getstate_plain lib etree_tostring self :
  ev_class self ∈ built_classes ->
  capabilities (ev_class self) ## data_formats ->
  getstate lib etree_tostring self = Ok (ev_dict self).
Proof.
  destruct self as [cls m]. simpl. intros Hc Hplain.
  class_cases Hc; evaluate_in Hplain; reflexivity.
Qed.

(** X18: the copy of an event of class [Event] or [LogEvent] that holds a
    payload has the class and every attribute of the original; the one
    difference is that a copy always has the error slot, [None] when the
    original had none (as a [LogEvent] does). An original that holds both
    payload and error slot is equal to its copy. An event with attributes
    but no payload slot cannot be copied: [KeyError]. *)
Theorem clone_plain_event lib etree_tostring self :
  ev_class self ∈ [Event; LogEvent] ->
  (forall d,
      ev_dict self !! "_data" = Some d ->
      clone lib etree_tostring self
      = Ok (set_slot self "_error" (default VNone (ev_dict self !! "_error"))))
  /\ (forall d e,
        ev_dict self !! "_data" = Some d -> ev_dict self !! "_error" = Some e ->
        clone lib etree_tostring self = Ok self)
  /\ (ev_dict self !! "_data" = None -> ev_dict self <> ∅ ->
      clone lib etree_tostring self = Raise KeyError).
Proof.
  intros Hcls.
  assert (ev_class self ∈ built_classes) as Hbuilt
    by (class_cases Hcls; by_evaluation).
  assert (capabilities (ev_class self) ## data_formats) as Hplain
    by (class_cases Hcls; by_evaluation).
  assert (forall exception m,
             set_error exception {| ev_class := ev_class self; ev_dict := m |}
             = ({| ev_class := ev_class self; ev_dict := <["_error" := exception]> m |},
                Ok tt)) as Herror
    by (intros; class_cases Hcls; reflexivity).
  assert (forall d,
             ev_dict self !! "_data" = Some d ->
             clone lib etree_tostring self
             = Ok (set_slot self "_error" (default VNone (ev_dict self !! "_error"))))
    as Hcopy.
  { intros d Hd. unfold clone. rewrite (getstate_plain _ _ _ Hbuilt Hplain). simpl.
    destruct (decide (ev_dict self = ∅)) as [Hempty|_].
    { by rewrite Hempty in Hd. }
    unfold construct. rewrite Event__setstate___run. simpl. rewrite Hd.
    rewrite (convert_data_plain lib _ d Hbuilt Hplain).
    rewrite Herror. unfold set_slot. by rewrite (insert_id _ _ _ Hd). }
  split; [exact Hcopy | split].
  - intros d e Hd He. rewrite (Hcopy d Hd), He. simpl.
    destruct self as [cls m]. unfold set_slot. simpl in *. by rewrite insert_id.
  - intros Hd Hne. unfold clone. rewrite (getstate_plain _ _ _ Hbuilt Hplain). simpl.
    destruct (decide (ev_dict self = ∅)) as [Hempty|_]; [done |].
    unfold construct. rewrite Event__setstate___run. simpl. by rewrite Hd.
Qed.

(** A plain event as the constructor leaves it is equal to its copy. *)
Lemma clone_plain_event_witness :
  clone example_lib example_tostring plain_event = Ok plain_event.
Proof.
  destruct (clone_plain_event example_lib example_tostring plain_event)
    as (_ & Hsame & _); [by_evaluation |].
  apply (Hsame (VStr "payload") VNone); reflexivity.
Defined.

(** X19: restoring a state on an HTTP-capable event sets the error of the
    state through the [error] setter: the status becomes the one the table
    gives the class of the error and the headers of the entry are merged
    in, whatever status the state itself recorded. A copy of an event
    whose status was changed after the error was set therefore shows the
    status of the error again. *)
Theorem setstate_rederives_status lib state self c message hs d v :
  ev_class self ∈ built_classes -> HTTP ∈ capabilities (ev_class self) ->
  state !! "_data" = Some d -> convert_data lib (ev_class self) d = Ok v ->
  state !! "_error" = Some (VExc c message) ->
  state !! "headers" = Some (VDict hs) ->
  Event__setstate__ lib state self
  = ({| ev_class := ev_class self;
        ev_dict := <["_error" := VExc c message]>
                     (<["headers" := VDict (dict_update hs (table_headers c))]>
                        (<["_status" := table_status c]> (<["_data" := v]> state))) |},
     Ok tt).
Proof.
  intros Hc Hhttp Hd Hv He Hh.
  rewrite Event__setstate___run, Hd, Hv, He. simpl.
  rewrite set_error_HttpEvent by done.
  rewrite (HttpEvent__set_error_run _ c message hs); [reflexivity |].
  simpl. by rewrite lookup_insert_ne.
Qed.

(** The event whose status was set back to 200 by hand: its copy has the
    status of [ResourceNotFound] again. *)
Lemma setstate_rederives_status_witness :
  exists copy,
    clone example_lib example_tostring overridden_event = Ok copy
    /\ get_status overridden_event = Ok (VTuple [VInt 200; VStr "OK"])
    /\ get_status copy = Ok (VTuple [VInt 404; VStr "Not Found"]).
Proof.
  pose proof (setstate_rederives_status example_lib (ev_dict overridden_event)
                {| ev_class := HttpEvent; ev_dict := ∅ |}
                ResourceNotFound "missing" [(KStr "X-Trace", VStr "1")] VNone VNone)
    as Hrun.
  eexists. split; [| split; [reflexivity |]].
  - unfold clone.
    change (getstate example_lib example_tostring overridden_event)
      with (Ok (ev_dict overridden_event)).
    cbn [bind]. destruct (decide (ev_dict overridden_event = ∅)) as [Hempty|_].
    { exfalso. apply (f_equal (fun m => m !! "_data")) in Hempty. discriminate Hempty. }
    unfold construct. change (ev_class overridden_event) with HttpEvent.
    rewrite Hrun; [reflexivity | by_evaluation | by_evaluation | | | |];
      reflexivity.
  - reflexivity.
Defined.
